(** * The ledger core of the banking service (q3/app)

    A shallow embedding of [app/models], [app/schemas/transaction.py],
    [app/services/transaction_service.py], [app/services/account_service.py]
    and the [get_db] session dependency, followed by the properties of the
    debit / credit / update pipeline.

    Conventions.
    - [Decimal] amounts and balances are counted in hundredths, the scale of
      the [Numeric(18, 2)] columns: 1000.00 is [100000].  Amounts with more
      than two decimals, which the schemas admit and the columns round, are
      not represented: the properties of arbitrary requests give the
      direction and the sign of a balance change, and exact balances are
      given for amounts of whole hundredths only.
    - The SQLAlchemy session is explicit state: the committed rows, the rows
      as the open session holds them (with unflushed attribute changes), and
      the objects handed to [db.add].
    - Rows are kept in lists and found by their [id] column; a new
      transaction row goes to the front.
    - Every round trip to the database ([first()], [commit()], [refresh()])
      takes the next entry of a fault schedule; an entry [Some e] makes the
      call raise that [SQLAlchemyError].  The schedule stands for every error
      the database may raise apart from the [CHECK (balance >= 0)] constraint,
      which [db_commit] evaluates itself.  [rollback()] and [close()] do
      not fail.
    - [uuid.uuid4()] and [datetime.utcnow()] read from the environment part
      of the state; identifiers drawn from [uuid4] are taken to be new, a
      key collision being one more error of the schedule.
    - The ORM classes are records of their columns.  Logging, and the local
      [old_version] that the services read and never use, are left out. *)

From Stdlib Require Import ZArith List Ascii String Bool Lia.
Import ListNotations.
Local Open Scope string_scope.
Local Open Scope Z_scope.

(** ** Models: app/models/transaction.py, app/models/account.py *)

Inductive TransactionType := DEBIT | CREDIT.

Inductive TransactionStatus := PENDING | COMPLETED | FAILED | REVERSED.

Definition TransactionStatus_eq_dec (x y : TransactionStatus) : {x = y} + {x <> y}.
Proof. decide equality. Defined.

Module Account.
Record t := mk {
  id : string;
  account_number : string;
  account_name : string;
  balance : Z;
  currency : string;
  is_active : bool;
  version : Z;
  created_at : option Z;
  updated_at : option Z
}.

Definition with_account_name (v : string) (a : t) : t :=
  mk (id a) (account_number a) v (balance a) (currency a) (is_active a)
     (version a) (created_at a) (updated_at a).
Definition with_balance (v : Z) (a : t) : t :=
  mk (id a) (account_number a) (account_name a) v (currency a) (is_active a)
     (version a) (created_at a) (updated_at a).
Definition with_is_active (v : bool) (a : t) : t :=
  mk (id a) (account_number a) (account_name a) (balance a) (currency a) v
     (version a) (created_at a) (updated_at a).
Definition with_version (v : Z) (a : t) : t :=
  mk (id a) (account_number a) (account_name a) (balance a) (currency a)
     (is_active a) v (created_at a) (updated_at a).
Definition with_updated_at (v : option Z) (a : t) : t :=
  mk (id a) (account_number a) (account_name a) (balance a) (currency a)
     (is_active a) (version a) (created_at a) v.
End Account.

Module Transaction.
Record t := mk {
  id : string;
  account_id : string;
  transaction_type : TransactionType;
  amount : Z;
  currency : string;
  status : TransactionStatus;
  reference : option string;
  description : option string;
  metadata : option string;
  created_at : option Z;
  updated_at : option Z
}.

Definition with_status (v : TransactionStatus) (x : t) : t :=
  mk (id x) (account_id x) (transaction_type x) (amount x) (currency x) v
     (reference x) (description x) (metadata x) (created_at x) (updated_at x).
Definition with_reference (v : option string) (x : t) : t :=
  mk (id x) (account_id x) (transaction_type x) (amount x) (currency x)
     (status x) v (description x) (metadata x) (created_at x) (updated_at x).
Definition with_created_at (v : option Z) (x : t) : t :=
  mk (id x) (account_id x) (transaction_type x) (amount x) (currency x)
     (status x) (reference x) (description x) (metadata x) v (updated_at x).
Definition with_updated_at (v : option Z) (x : t) : t :=
  mk (id x) (account_id x) (transaction_type x) (amount x) (currency x)
     (status x) (reference x) (description x) (metadata x) (created_at x) v.

(** Two objects have the same attributes. *)
Definition eq_dec (x y : t) : {x = y} + {x <> y}.
Proof. repeat decide equality. Defined.
End Transaction.

(** ** Schemas: app/schemas/transaction.py, app/schemas/account.py *)

(** [Dict[str, Any]]: the keys in insertion order, the values of a type [V]
    that the services never inspect. *)
Definition Dict (V : Type) := list (string * V).

(** [json.dumps] of the standard library, on such a dictionary. *)
Class Json (V : Type) := json_dumps : Dict V -> string.

Module TransactionBase.
Record t {V : Type} := mk {
  account_id : string;
  amount : Z;
  currency : string;
  reference : option string;
  description : option string;
  metadata : option (Dict V)
}.
Arguments t : clear implicits.
Arguments mk {V}.

Definition with_reference {V} (r : option string) (d : t V) : t V :=
  mk (account_id d) (amount d) (currency d) r (description d) (metadata d).
Definition with_metadata {V} (m : option (Dict V)) (d : t V) : t V :=
  mk (account_id d) (amount d) (currency d) (reference d) (description d) m.

Definition currencies : list string :=
  ["USD"; "EUR"; "GBP"; "JPY"; "AUD"; "CAD"; "CHF"; "CNY"; "INR"].

(** [validate_currency]: membership in the fixed list. *)
Definition validate_currency (v : string) : bool :=
  existsb (String.eqb v) currencies.

(** The field constraints the request body passes before a service runs:
    [amount: Field(..., gt=0)], the currency validator, and the length
    bounds of [reference] and [description]. *)
Definition validate {V} (d : t V) : bool :=
  (0 <? amount d)
  && validate_currency (currency d)
  && match reference d with
     | Some r => (String.length r <=? 50)%nat
     | None => true
     end
  && match description d with
     | Some s => (String.length s <=? 500)%nat
     | None => true
     end.
End TransactionBase.

(** [DebitCreate] and [CreditCreate] add a [transaction_type] field that the
    services never read. *)
Definition DebitCreate := TransactionBase.t.
Definition CreditCreate := TransactionBase.t.

Module AccountUpdate.
Record t := mk {
  account_name : option string;
  is_active : option bool
}.
End AccountUpdate.

(** [AccountCreate]: [initial_balance] is 0 when the request leaves it out. *)
Module AccountCreate.
Record t := mk {
  account_number : string;
  account_name : string;
  currency : string;
  initial_balance : Z
}.

(** The field constraints of [AccountBase] and [AccountCreate]. *)
Definition validate (d : t) : bool :=
  (5 <=? String.length (account_number d))%nat
  && (String.length (account_number d) <=? 20)%nat
  && (1 <=? String.length (account_name d))%nat
  && (String.length (account_name d) <=? 100)%nat
  && TransactionBase.validate_currency (currency d)
  && (0 <=? initial_balance d).
End AccountCreate.

(** The dictionary [get_account_balance] returns. *)
Module AccountBalance.
Record t := mk {
  account_id : string;
  account_number : string;
  balance : Z;
  currency : string
}.
End AccountBalance.

(** ** Exceptions *)

Inductive SQLAlchemyErrorClass := IntegrityError | OperationalError | InvalidRequestError.

Inductive exn :=
| HTTPException (status_code : Z) (detail : string)
| SQLAlchemyError (cls : SQLAlchemyErrorClass) (message : string)
| AttributeError (message : string)
| RetryError.

Definition HTTP_400_BAD_REQUEST : Z := 400.
Definition HTTP_404_NOT_FOUND : Z := 404.
Definition HTTP_500_INTERNAL_SERVER_ERROR : Z := 500.
Definition HTTP_409_CONFLICT : Z := 409.

(** [isinstance(e, SQLAlchemyError)] and [isinstance(e, IntegrityError)]. *)
Definition is_SQLAlchemyError (e : exn) : bool :=
  match e with SQLAlchemyError _ _ => true | _ => false end.

Definition is_IntegrityError (e : exn) : bool :=
  match e with SQLAlchemyError IntegrityError _ => true | _ => false end.

(** ** The database and the session over it *)

(** What a failing round trip raises: the class of the [SQLAlchemyError] and
    its message. *)
Definition DbFault : Type := SQLAlchemyErrorClass * string.

Record Database := mkDatabase {
  accounts : list Account.t;
  transactions : list Transaction.t   (* newest row first *)
}.

Record Session := mkSession {
  loaded : Database;                 (* the rows as the session holds them *)
  dirty_accounts : list string;      (* keys of accounts with unflushed changes *)
  dirty_transactions : list string;  (* the same for loaded transactions *)
  added : list Transaction.t         (* objects given to db.add, not yet flushed *)
}.

(** A session that holds no change over the rows [d]. *)
Definition clean_session (d : Database) : Session := mkSession d [] [] [].

Record World := mkWorld {
  committed : Database;              (* what every other session can read *)
  session : Session;
  faults : list (option DbFault);    (* outcome of the coming round trips *)
  utcnow : Z;                        (* datetime.utcnow() *)
  uuid4 : nat -> string;             (* the values uuid.uuid4() will return *)
  uuid_calls : nat;
  slept : list Z                     (* the waits between attempts, oldest first *)
}.

Definition with_committed (d : Database) (w : World) : World :=
  mkWorld d (session w) (faults w) (utcnow w) (uuid4 w) (uuid_calls w) (slept w).
Definition with_session (s : Session) (w : World) : World :=
  mkWorld (committed w) s (faults w) (utcnow w) (uuid4 w) (uuid_calls w) (slept w).
Definition with_faults (f : list (option DbFault)) (w : World) : World :=
  mkWorld (committed w) (session w) f (utcnow w) (uuid4 w) (uuid_calls w) (slept w).

(** ** Computations that read and write the world and may raise *)

Inductive outcome (A : Type) :=
| Return (a : A)
| Raise (e : exn).
Arguments Return {A}.
Arguments Raise {A}.

Definition M (A : Type) : Type := World -> outcome A * World.

Definition ret {A} (a : A) : M A := fun w => (Return a, w).

Definition raise {A} (e : exn) : M A := fun w => (Raise e, w).

Definition bind {A B} (m : M A) (k : A -> M B) : M B :=
  fun w =>
    match m w with
    | (Return a, w') => k a w'
    | (Raise e, w') => (Raise e, w')
    end.

(** [try: body  except ...: handler]; [handler e = None] when no clause
    matches [e], which then propagates. *)
Definition try_except {A} (body : M A) (handler : exn -> option (M A)) : M A :=
  fun w =>
    match body w with
    | (Return a, w') => (Return a, w')
    | (Raise e, w') =>
        match handler e with
        | Some h => h w'
        | None => (Raise e, w')
        end
    end.

Declare Scope py_scope.
Delimit Scope py_scope with py.
Notation "x <- m ;; k" := (bind m (fun x => k))
  (at level 61, m at next level, right associativity) : py_scope.
Notation "m ;; k" := (bind m (fun _ => k))
  (at level 61, right associativity) : py_scope.
Local Open Scope py_scope.

(** ** SQLAlchemy session operations *)

(** One round trip: the next entry of the schedule decides whether it
    raises; an exhausted schedule means no fault. *)
Definition round_trip : M unit :=
  fun w =>
    match faults w with
    | Some (cls, msg) :: rest => (Raise (SQLAlchemyError cls msg), with_faults rest w)
    | _ => (Return tt, with_faults (tl (faults w)) w)
    end.

Definition find_account (account_id : string) (l : list Account.t) : option Account.t :=
  find (fun a => String.eqb (Account.id a) account_id) l.

Definition find_transaction (transaction_id : string) (l : list Transaction.t)
    : option Transaction.t :=
  find (fun x => String.eqb (Transaction.id x) transaction_id) l.

(** Writing the attributes of an object back to the row with its key. *)
Definition put_account (a : Account.t) (l : list Account.t) : list Account.t :=
  map (fun r => if String.eqb (Account.id r) (Account.id a) then a else r) l.

Definition put_transaction (x : Transaction.t) (l : list Transaction.t)
    : list Transaction.t :=
  map (fun r => if String.eqb (Transaction.id r) (Transaction.id x) then x else r) l.

Definition mem (k : string) (l : list string) : bool := existsb (String.eqb k) l.

(** [db.query(Account).filter(Account.id == account_id).first()], with or
    without [with_for_update()]: the row lock has no effect on a single
    session. *)
Definition query_account_first (account_id : string) : M (option Account.t) :=
  round_trip ;;
  fun w => (Return (find_account account_id (accounts (loaded (session w)))), w).

(** [db.query(Transaction).filter(Transaction.id == transaction_id).first()]. *)
Definition query_transaction_first (transaction_id : string)
    : M (option Transaction.t) :=
  round_trip ;;
  fun w =>
    (Return (find_transaction transaction_id (transactions (loaded (session w)))), w).

(** An attribute assignment on a loaded [Account]: the session sees the new
    value at once and marks the row dirty (every sequence of assignments in
    the services ends with [version += 1], so the row does differ from the
    committed one).  The result is the object after the assignment. *)
Definition Account_setattr (a : Account.t) : M Account.t :=
  fun w =>
    let s := session w in
    (Return a,
     with_session
       (mkSession
          (mkDatabase (put_account a (accounts (loaded s))) (transactions (loaded s)))
          (Account.id a :: dirty_accounts s) (dirty_transactions s) (added s))
       w).

(** The attributes of [x] differ from those of its row as committed: only
    then has the flush an UPDATE to emit for it. *)
Definition net_change (x : Transaction.t) (d : Database) : bool :=
  match find_transaction (Transaction.id x) (transactions d) with
  | Some row => if Transaction.eq_dec row x then false else true
  | None => true
  end.

(** An attribute assignment on a [Transaction]: on the pending object when it
    was given to [db.add] and is not flushed yet, else on the loaded row,
    which is dirty as long as its attributes differ from the committed
    ones. *)
Definition Transaction_setattr (x : Transaction.t) : M Transaction.t :=
  fun w =>
    let s := session w in
    if existsb (fun r => String.eqb (Transaction.id r) (Transaction.id x)) (added s)
    then
      (Return x,
       with_session
         (mkSession (loaded s) (dirty_accounts s) (dirty_transactions s)
                    (put_transaction x (added s)))
         w)
    else
      (Return x,
       with_session
         (mkSession
            (mkDatabase (accounts (loaded s))
                        (put_transaction x (transactions (loaded s))))
            (dirty_accounts s)
            (if net_change x (committed w) then
               Transaction.id x :: dirty_transactions s
             else
               filter (fun k => negb (String.eqb k (Transaction.id x)))
                      (dirty_transactions s))
            (added s))
         w).

(** [db.add(transaction)]. *)
Definition db_add (x : Transaction.t) : M unit :=
  fun w =>
    let s := session w in
    (Return tt,
     with_session
       (mkSession (loaded s) (dirty_accounts s) (dirty_transactions s) (added s ++ [x]))
       w).

(** [default=datetime.utcnow]: used by INSERT when the attribute is unset. *)
Definition default_now (now : Z) (v : option Z) : option Z :=
  match v with
  | Some t => Some t
  | None => Some now
  end.

Definition insert_transaction (now : Z) (x : Transaction.t) : Transaction.t :=
  Transaction.with_updated_at (default_now now (Transaction.updated_at x))
    (Transaction.with_created_at (default_now now (Transaction.created_at x)) x).

(** [onupdate=datetime.utcnow]: an UPDATE of a dirty row sets [updated_at]. *)
Definition update_account_row (now : Z) (d : list string) (a : Account.t) : Account.t :=
  if mem (Account.id a) d then Account.with_updated_at (Some now) a else a.

Definition update_transaction_row (now : Z) (d : list string) (x : Transaction.t)
    : Transaction.t :=
  if mem (Transaction.id x) d then Transaction.with_updated_at (Some now) x else x.

(** [CheckConstraint('balance >= 0', name='check_balance_non_negative')],
    evaluated on the rows an UPDATE writes. *)
Definition check_balance_non_negative (d : list string) (l : list Account.t) : bool :=
  forallb (fun a => negb (mem (Account.id a) d) || (0 <=? Account.balance a)) l.

(** What a flush of the session [s] at time [now] writes. *)
Definition flush (now : Z) (s : Session) : Database :=
  mkDatabase
    (map (update_account_row now (dirty_accounts s)) (accounts (loaded s)))
    (rev (map (insert_transaction now) (added s))
     ++ map (update_transaction_row now (dirty_transactions s))
            (transactions (loaded s))).

(** [db.commit()]: flush and commit.  A fault or a violated constraint raises
    and leaves the committed rows alone. *)
Definition db_commit : M unit :=
  round_trip ;;
  fun w =>
    let s := session w in
    if check_balance_non_negative (dirty_accounts s) (accounts (loaded s)) then
      let d := flush (utcnow w) s in
      (Return tt, with_session (clean_session d) (with_committed d w))
    else
      (Raise (SQLAlchemyError IntegrityError "check_balance_non_negative"), w).

(** [db.rollback()]: the session forgets every pending change. *)
Definition db_rollback : M unit :=
  fun w => (Return tt, with_session (clean_session (committed w)) w).

(** [db.refresh(obj)]: load the row of the object again. *)
Definition db_refresh_transaction (x : Transaction.t) : M Transaction.t :=
  round_trip ;;
  fun w =>
    match find_transaction (Transaction.id x) (transactions (loaded (session w))) with
    | Some row => (Return row, w)
    | None => (Raise (SQLAlchemyError InvalidRequestError "Could not refresh instance"), w)
    end.

Definition db_refresh_account (a : Account.t) : M Account.t :=
  round_trip ;;
  fun w =>
    match find_account (Account.id a) (accounts (loaded (session w))) with
    | Some row => (Return row, w)
    | None => (Raise (SQLAlchemyError InvalidRequestError "Could not refresh instance"), w)
    end.

(** [str(uuid.uuid4())]. *)
Definition uuid_uuid4 : M string :=
  fun w =>
    (Return (uuid4 w (uuid_calls w)),
     mkWorld (committed w) (session w) (faults w) (utcnow w) (uuid4 w)
             (S (uuid_calls w)) (slept w)).

(** app/db/session.py, [get_db]: a new session for the request, closed when
    the request is over whatever its outcome. *)
Definition get_db {A} (endpoint : M A) : M A :=
  fun w =>
    let (r, w') := endpoint (with_session (clean_session (committed w)) w) in
    (r, with_session (clean_session (committed w')) w').

(** [db.query(Account).filter(Account.account_number == n).first()]. *)
Definition query_account_by_number_first (account_number : string)
    : M (option Account.t) :=
  round_trip ;;
  fun w =>
    (Return (find (fun a => String.eqb (Account.account_number a) account_number)
                  (accounts (loaded (session w)))), w).

(** What the INSERT of a new [Account] writes: the two timestamps get their
    default. *)
Definition insert_account (now : Z) (a : Account.t) : Account.t :=
  Account.mk (Account.id a) (Account.account_number a) (Account.account_name a)
             (Account.balance a) (Account.currency a) (Account.is_active a)
             (Account.version a) (default_now now (Account.created_at a))
             (default_now now (Account.updated_at a)).

(** [str(e)] of an error that a statement raised: the text of the driver
    and the statement. *)
Definition statement_error (orig statement : string) : string :=
  (orig ++ " [SQL: " ++ statement ++ "]")%string.

Definition insert_accounts : string :=
  "INSERT INTO accounts (id, account_number, account_name, balance, currency, is_active, version, created_at, updated_at) VALUES (?, ?, ?, ?, ?, ?, ?, ?, ?)".

(** The errors the INSERT can raise: the balance constraint, and a second
    row with one [account_number] ([unique=True]). *)
Definition check_violation : string :=
  statement_error "CHECK constraint failed: check_balance_non_negative" insert_accounts.

Definition unique_violation : string :=
  statement_error "UNIQUE constraint failed: accounts.account_number" insert_accounts.

(** [db.add(db_account)] and the [db.commit()] after it, in one step (the
    session keeps no list of pending accounts): the flush of whatever the
    session holds, and the INSERT of the new row, which the balance
    constraint and the unique [account_number] can refuse. *)
Definition db_add_commit_account (a : Account.t) : M unit :=
  round_trip ;;
  fun w =>
    let s := session w in
    if negb (check_balance_non_negative (dirty_accounts s) (accounts (loaded s))) then
      (Raise (SQLAlchemyError IntegrityError "check_balance_non_negative"), w)
    else if negb (0 <=? Account.balance a) then
      (Raise (SQLAlchemyError IntegrityError check_violation), w)
    else if existsb (fun r => String.eqb (Account.account_number r)
                                         (Account.account_number a))
                    (accounts (loaded s)) then
      (Raise (SQLAlchemyError IntegrityError unique_violation), w)
    else
      let d := mkDatabase
                 (accounts (flush (utcnow w) s) ++ [insert_account (utcnow w) a])
                 (transactions (flush (utcnow w) s)) in
      (Return tt, with_session (clean_session d) (with_committed d w)).

(** [str.lower] on the letters A to Z, and [needle in haystack]. *)
Definition ascii_lower (c : ascii) : ascii :=
  let n := nat_of_ascii c in
  if ((65 <=? n) && (n <=? 90))%nat then ascii_of_nat (n + 32) else c.

Fixpoint lower (s : string) : string :=
  match s with
  | EmptyString => EmptyString
  | String c rest => String (ascii_lower c) (lower rest)
  end.

Fixpoint contains (needle haystack : string) : bool :=
  String.prefix needle haystack
  || match haystack with
     | EmptyString => false
     | String _ rest => contains needle rest
     end.

(** ** tenacity *)

(** [wait_exponential(multiplier, min, max)] at a given attempt number. *)
Definition wait_exponential (multiplier min max : Z) (attempt_number : Z) : Z :=
  Z.max (Z.max 0 min) (Z.min (multiplier * 2 ^ (attempt_number - 1)) max).

Definition sleep (seconds : Z) : M unit :=
  fun w =>
    (Return tt,
     mkWorld (committed w) (session w) (faults w) (utcnow w + seconds) (uuid4 w)
             (uuid_calls w) (slept w ++ [seconds])).

(** The loop of the [@retry] decorator.  An attempt that returns, or raises
    an exception the predicate rejects, ends the loop with that outcome; a
    retryable exception at the last allowed attempt raises [RetryError];
    otherwise the loop waits and calls the function again.  [left] is the
    number of attempts still allowed after this one. *)
Fixpoint retrying {A} (retry_if : exn -> bool) (wait : Z -> Z)
    (left : nat) (attempt_number : Z) (f : M A) : M A :=
  fun w =>
    match f w with
    | (Return a, w') => (Return a, w')
    | (Raise e, w') =>
        if retry_if e then
          match left with
          | O => (Raise RetryError, w')
          | S left' =>
              (sleep (wait attempt_number) ;;
               retrying retry_if wait left' (attempt_number + 1) f) w'
          end
        else (Raise e, w')
    end.

(** [@retry(stop=stop_after_attempt(n), retry=..., wait=...)]. *)
Definition retry {A} (stop_after_attempt : Z) (retry_if : exn -> bool)
    (wait : Z -> Z) (f : M A) : M A :=
  retrying retry_if wait (Z.to_nat (stop_after_attempt - 1)) 1 f.

(** app/core/config.py *)
Record Settings := mkSettings {
  MAX_TRANSACTION_RETRIES : Z
}.

(** The value when the environment does not set it. *)
Definition default_settings : Settings := mkSettings 3.

(** ** app/services/transaction_service.py *)

Module TransactionService.

(** [metadata=json.dumps(metadata) if metadata else None]: [None] and the
    empty dictionary are both false. *)
Definition dump_metadata {V} `{Json V} (metadata : option (Dict V)) : option string :=
  match metadata with
  | Some (kv :: rest) => Some (json_dumps (kv :: rest))
  | Some [] => None
  | None => None
  end.

(** Create a transaction record with initial PENDING status. *)
Definition _record_transaction {V} `{Json V}
    (transaction_type : TransactionType) (account_id : string) (amount : Z)
    (currency : string) (reference description : option string)
    (metadata : option (Dict V)) : M Transaction.t :=
  id <- uuid_uuid4 ;;
  let transaction :=
    Transaction.mk id account_id transaction_type amount currency PENDING
                   reference description (dump_metadata metadata) None None in
  db_add transaction ;;
  ret transaction.

(** Update transaction status.  The parameter [status] hides the
    [fastapi.status] module inside the function, so building the 404 reads
    [HTTP_404_NOT_FOUND] off a [TransactionStatus] member. *)
Definition _update_transaction_status (transaction_id : string)
    (status : TransactionStatus) (commit : bool) : M Transaction.t :=
  transaction <- query_transaction_first transaction_id ;;
  match transaction with
  | None =>
      raise (AttributeError
               "'TransactionStatus' object has no attribute 'HTTP_404_NOT_FOUND'")
  | Some transaction =>
      transaction <- Transaction_setattr (Transaction.with_status status transaction) ;;
      if commit then
        db_commit ;;
        transaction <- db_refresh_transaction transaction ;;
        ret transaction
      else ret transaction
  end.

Definition currency_mismatch_detail (account_currency data_currency : string) : string :=
  ("Currency mismatch. Account currency is " ++ account_currency
   ++ ", transaction currency is " ++ data_currency)%string.

(** The [except] clauses shared by [debit_account] and [credit_account]
    (they differ in the logged line only). *)
Definition on_exception (e : exn) : option (M Transaction.t) :=
  match e with
  | HTTPException _ _ => Some (db_rollback ;; raise e)
  | SQLAlchemyError _ _ =>
      Some (db_rollback ;;
            raise (HTTPException HTTP_500_INTERNAL_SERVER_ERROR
                     "Failed to process transaction due to database error"))
  | _ => None
  end.

(** The block under [try:] in [debit_account]. *)
Definition debit_account_try {V} `{Json V} (debit_data : DebitCreate V)
    : M Transaction.t :=
  account <- query_account_first (TransactionBase.account_id debit_data) ;;
  match account with
  | None => raise (HTTPException HTTP_404_NOT_FOUND "Account not found")
  | Some account =>
      if negb (Account.is_active account) then
        raise (HTTPException HTTP_400_BAD_REQUEST "Account is inactive")
      else if negb (String.eqb (Account.currency account)
                               (TransactionBase.currency debit_data)) then
        raise (HTTPException HTTP_400_BAD_REQUEST
                 (currency_mismatch_detail (Account.currency account)
                    (TransactionBase.currency debit_data)))
      else if Account.balance account <? TransactionBase.amount debit_data then
        raise (HTTPException HTTP_400_BAD_REQUEST "Insufficient funds")
      else
        transaction <- _record_transaction DEBIT (Account.id account)
                         (TransactionBase.amount debit_data)
                         (Account.currency account)
                         (TransactionBase.reference debit_data)
                         (TransactionBase.description debit_data)
                         (TransactionBase.metadata debit_data) ;;
        account <- Account_setattr
                     (Account.with_balance
                        (Account.balance account - TransactionBase.amount debit_data)
                        account) ;;
        account <- Account_setattr
                     (Account.with_version (Account.version account + 1) account) ;;
        transaction <- Transaction_setattr
                         (Transaction.with_status COMPLETED transaction) ;;
        db_commit ;;
        transaction <- db_refresh_transaction transaction ;;
        ret transaction
  end.

(** The function under the decorator: one attempt of a debit. *)
Definition debit_account_body {V} `{Json V} (debit_data : DebitCreate V)
    : M Transaction.t :=
  try_except (debit_account_try debit_data) on_exception.

(** The block under [try:] in [credit_account]. *)
Definition credit_account_try {V} `{Json V} (credit_data : CreditCreate V)
    : M Transaction.t :=
  account <- query_account_first (TransactionBase.account_id credit_data) ;;
  match account with
  | None => raise (HTTPException HTTP_404_NOT_FOUND "Account not found")
  | Some account =>
      if negb (Account.is_active account) then
        raise (HTTPException HTTP_400_BAD_REQUEST "Account is inactive")
      else if negb (String.eqb (Account.currency account)
                               (TransactionBase.currency credit_data)) then
        raise (HTTPException HTTP_400_BAD_REQUEST
                 (currency_mismatch_detail (Account.currency account)
                    (TransactionBase.currency credit_data)))
      else
        transaction <- _record_transaction CREDIT (Account.id account)
                         (TransactionBase.amount credit_data)
                         (Account.currency account)
                         (TransactionBase.reference credit_data)
                         (TransactionBase.description credit_data)
                         (TransactionBase.metadata credit_data) ;;
        account <- Account_setattr
                     (Account.with_balance
                        (Account.balance account + TransactionBase.amount credit_data)
                        account) ;;
        account <- Account_setattr
                     (Account.with_version (Account.version account + 1) account) ;;
        transaction <- Transaction_setattr
                         (Transaction.with_status COMPLETED transaction) ;;
        db_commit ;;
        transaction <- db_refresh_transaction transaction ;;
        ret transaction
  end.

(** One attempt of a credit. *)
Definition credit_account_body {V} `{Json V} (credit_data : CreditCreate V)
    : M Transaction.t :=
  try_except (credit_account_try credit_data) on_exception.

(** [@retry(stop=stop_after_attempt(settings.MAX_TRANSACTION_RETRIES),
           retry=retry_if_exception_type(SQLAlchemyError),
           wait=wait_exponential(multiplier=1, min=1, max=10))] *)
Definition decorator {A} (settings : Settings) : M A -> M A :=
  retry (MAX_TRANSACTION_RETRIES settings) is_SQLAlchemyError
        (wait_exponential 1 1 10).

Definition debit_account {V} `{Json V} (settings : Settings)
    (debit_data : DebitCreate V) : M Transaction.t :=
  decorator settings (debit_account_body debit_data).

Definition credit_account {V} `{Json V} (settings : Settings)
    (credit_data : CreditCreate V) : M Transaction.t :=
  decorator settings (credit_account_body credit_data).

(** Get transaction details by ID. *)
Definition get_transaction (transaction_id : string) : M Transaction.t :=
  transaction <- query_transaction_first transaction_id ;;
  match transaction with
  | None => raise (HTTPException HTTP_404_NOT_FOUND "Transaction not found")
  | Some transaction => ret transaction
  end.

End TransactionService.

(** ** app/services/account_service.py *)

Module AccountService.

(** Get account details by ID. *)
Definition get_account (account_id : string) : M Account.t :=
  account <- query_account_first account_id ;;
  match account with
  | None => raise (HTTPException HTTP_404_NOT_FOUND "Account not found")
  | Some account => ret account
  end.

(** Update account details.  Only [IntegrityError] is caught around the
    commit; every other exception leaves the function as it is. *)
Definition update_account (account_id : string) (account_data : AccountUpdate.t)
    : M Account.t :=
  account <- get_account account_id ;;
  account <- match AccountUpdate.account_name account_data with
             | Some name => Account_setattr (Account.with_account_name name account)
             | None => ret account
             end ;;
  account <- match AccountUpdate.is_active account_data with
             | Some flag => Account_setattr (Account.with_is_active flag account)
             | None => ret account
             end ;;
  account <- Account_setattr
               (Account.with_version (Account.version account + 1) account) ;;
  try_except
    (db_commit ;;
     account <- db_refresh_account account ;;
     ret account)
    (fun e =>
       match e with
       | SQLAlchemyError IntegrityError message =>
           Some (db_rollback ;;
                 raise (HTTPException HTTP_400_BAD_REQUEST
                          ("Failed to update account: " ++ message)%string))
       | _ => None
       end).

(** Create a new account with initial balance.  The columns the constructor
    leaves unset take their defaults at the INSERT: [is_active=True],
    [version=1] and the two timestamps.  Only [IntegrityError] is caught. *)
Definition create_account (account_data : AccountCreate.t) : M Account.t :=
  id <- uuid_uuid4 ;;
  let db_account :=
    Account.mk id (AccountCreate.account_number account_data)
               (AccountCreate.account_name account_data)
               (AccountCreate.initial_balance account_data)
               (AccountCreate.currency account_data) true 1 None None in
  try_except
    (db_add_commit_account db_account ;;
     db_account <- db_refresh_account db_account ;;
     ret db_account)
    (fun e =>
       match e with
       | SQLAlchemyError IntegrityError message =>
           Some (db_rollback ;;
                 if contains "account_number" (lower message) then
                   raise (HTTPException HTTP_409_CONFLICT
                            "Account with this account number already exists")
                 else
                   raise (HTTPException HTTP_400_BAD_REQUEST
                            ("Failed to create account: " ++ message)%string))
       | _ => None
       end).

(** Get account details by account number. *)
Definition get_account_by_account_number (account_number : string) : M Account.t :=
  account <- query_account_by_number_first account_number ;;
  match account with
  | None => raise (HTTPException HTTP_404_NOT_FOUND "Account not found")
  | Some account => ret account
  end.

(** Get account balance. *)
Definition get_account_balance (account_id : string) : M AccountBalance.t :=
  account <- get_account account_id ;;
  ret (AccountBalance.mk (Account.id account) (Account.account_number account)
                         (Account.balance account) (Account.currency account)).

End AccountService.

(** ** app/api/v1/endpoints: each request runs its service on a session of
    its own *)

Module Endpoints.

Definition debit_account {V} `{Json V} (settings : Settings)
    (debit_data : DebitCreate V) : M Transaction.t :=
  get_db (TransactionService.debit_account settings debit_data).

Definition credit_account {V} `{Json V} (settings : Settings)
    (credit_data : CreditCreate V) : M Transaction.t :=
  get_db (TransactionService.credit_account settings credit_data).

Definition update_account (account_id : string) (account_data : AccountUpdate.t)
    : M Account.t :=
  get_db (AccountService.update_account account_id account_data).

Definition create_account (account_data : AccountCreate.t) : M Account.t :=
  get_db (AccountService.create_account account_data).

Definition get_account (account_id : string) : M Account.t :=
  get_db (AccountService.get_account account_id).

Definition get_account_balance (account_id : string) : M AccountBalance.t :=
  get_db (AccountService.get_account_balance account_id).

Definition get_transaction (transaction_id : string) : M Transaction.t :=
  get_db (TransactionService.get_transaction transaction_id).

End Endpoints.

(** ** A concrete ledger for examples *)

(** Dictionaries without values: only [{}] exists, and [json.dumps({})] is
    the two braces. *)
#[export] Instance Json_Empty_set : Json Empty_set := fun _ => "{}".

Definition acct (id : string) (balance : Z) (active : bool) (version : Z) : Account.t :=
  Account.mk id "ACC-0001" "Test Account" balance "USD" active version (Some 0) (Some 0).

Definition order (account_id : string) (amount : Z) (currency : string)
    : TransactionBase.t Empty_set :=
  TransactionBase.mk account_id amount currency None None None.

Definition world0 (l : list Account.t) (f : list (option DbFault)) : World :=
  mkWorld (mkDatabase l []) (clean_session (mkDatabase l [])) f 1000
          (fun n => match n with O => "tx-0" | _ => "tx-n" end) 0 [].

(** ** Vocabulary of the statements *)

(** The two POST routes of app/api/v1/endpoints/transactions.py, named by
    the type of transaction they record. *)
Definition post_transaction {V} `{Json V} (route : TransactionType)
    (settings : Settings) (data : TransactionBase.t V) : M Transaction.t :=
  match route with
  | DEBIT => Endpoints.debit_account settings data
  | CREDIT => Endpoints.credit_account settings data
  end.

(** The block under [try:] of the service behind a route. *)
Definition guarded_block {V} `{Json V} (route : TransactionType)
    (data : TransactionBase.t V) : M Transaction.t :=
  match route with
  | DEBIT => TransactionService.debit_account_try data
  | CREDIT => TransactionService.credit_account_try data
  end.

(** The business-rule checks the services make on the account they found,
    in their order: the exception raised, if any. *)
Definition rule_failure {V} (route : TransactionType)
    (data : TransactionBase.t V) (a : Account.t) : option exn :=
  if negb (Account.is_active a) then
    Some (HTTPException 400 "Account is inactive")
  else if negb (String.eqb (Account.currency a) (TransactionBase.currency data)) then
    Some (HTTPException 400
            (TransactionService.currency_mismatch_detail
               (Account.currency a) (TransactionBase.currency data)))
  else
    match route with
    | DEBIT =>
        if Account.balance a <? TransactionBase.amount data then
          Some (HTTPException 400 "Insufficient funds")
        else None
    | CREDIT => None
    end.

(** NotFound, Inactive, CurrencyMismatch and InsufficientFunds are the 404
    and 400 responses; the storage error is the 500. *)
Definition business_rule_error (e : exn) : bool :=
  match e with
  | HTTPException code _ => (code =? 404) || (code =? 400)
  | _ => false
  end.

Definition storage_error : exn :=
  HTTPException 500 "Failed to process transaction due to database error".

(** The balance a debit or credit of [amount] leaves. *)
Definition new_balance (route : TransactionType) (amount balance : Z) : Z :=
  match route with
  | DEBIT => balance - amount
  | CREDIT => balance + amount
  end.

(** The account row after a committed debit or credit at time [now]. *)
Definition posted (route : TransactionType) (amount now : Z) (a : Account.t) : Account.t :=
  Account.mk (Account.id a) (Account.account_number a) (Account.account_name a)
             (new_balance route amount (Account.balance a)) (Account.currency a)
             (Account.is_active a) (Account.version a + 1) (Account.created_at a)
             (Some now).

(** The transaction row a committed debit or credit on [a] inserts. *)
Definition receipt {V} `{Json V} (route : TransactionType) (data : TransactionBase.t V)
    (a : Account.t) (w : World) : Transaction.t :=
  Transaction.mk (uuid4 w (uuid_calls w)) (Account.id a) route
                 (TransactionBase.amount data) (Account.currency a) COMPLETED
                 (TransactionBase.reference data) (TransactionBase.description data)
                 (TransactionService.dump_metadata (TransactionBase.metadata data))
                 (Some (utcnow w)) (Some (utcnow w)).

(** The committed rows after a debit or credit on [a] has been committed. *)
Definition settled {V} `{Json V} (route : TransactionType) (data : TransactionBase.t V)
    (a : Account.t) (w : World) : Database :=
  mkDatabase
    (put_account (posted route (TransactionBase.amount data) (utcnow w) a)
                 (accounts (committed w)))
    (receipt route data a w :: transactions (committed w)).

(** The world a request leaves: committed rows [d], a closed session, the
    schedule [f] still to come, [calls] identifiers drawn. *)
Definition leave (d : Database) (f : list (option DbFault)) (calls : nat) (w : World)
    : World :=
  mkWorld d (clean_session d) f (utcnow w) (uuid4 w) calls (slept w).

(** One debit or credit request, case by case: the account query raises;
    the account is missing; a business rule fails; the commit raises (by the
    schedule, or by the balance constraint); the refresh after the commit
    raises; the request returns.  [post_transaction_trace] below shows that
    the services compute exactly this. *)
Definition ledger_trace {V} `{Json V} (route : TransactionType)
    (data : TransactionBase.t V) (w : World) : outcome Transaction.t * World :=
  let calls := uuid_calls w in
  match faults w with
  | Some _ :: rest => (Raise storage_error, leave (committed w) rest calls w)
  | f0 =>
      match find_account (TransactionBase.account_id data) (accounts (committed w)) with
      | None =>
          (Raise (HTTPException 404 "Account not found"),
           leave (committed w) (tl f0) calls w)
      | Some a =>
          match rule_failure route data a with
          | Some e => (Raise e, leave (committed w) (tl f0) calls w)
          | None =>
              match tl f0 with
              | Some _ :: rest =>
                  (Raise storage_error, leave (committed w) rest (S calls) w)
              | f1 =>
                  if 0 <=? new_balance route (TransactionBase.amount data)
                                       (Account.balance a)
                  then
                    match tl f1 with
                    | Some _ :: rest =>
                        (Raise storage_error,
                         leave (settled route data a w) rest (S calls) w)
                    | f2 =>
                        (Return (receipt route data a w),
                         leave (settled route data a w) (tl f2) (S calls) w)
                    end
                  else (Raise storage_error, leave (committed w) (tl f1) (S calls) w)
              end
          end
      end
  end.

(** None of the next [n] round trips is scheduled to fail. *)
Fixpoint no_fault (n : nat) (f : list (option DbFault)) : bool :=
  match n, f with
  | O, _ => true
  | S _, [] => true
  | S n', None :: rest => no_fault n' rest
  | S _, Some _ :: _ => false
  end.

(** The commit of a request that found [a] and passed the rules raises: the
    schedule has a fault for it, or the posting would break the balance
    constraint. *)
Definition commit_raises {V} (route : TransactionType) (data : TransactionBase.t V)
    (a : Account.t) (w : World) : Prop :=
  (exists flt rest, tl (faults w) = Some flt :: rest)
  \/ new_balance route (TransactionBase.amount data) (Account.balance a) < 0.

(** The balance and the version of the account with key [i], as committed. *)
Definition balance_of (i : string) (w : World) : option Z :=
  option_map Account.balance (find_account i (accounts (committed w))).

Definition version_of (i : string) (w : World) : option Z :=
  option_map Account.version (find_account i (accounts (committed w))).

(** Every committed balance is non-negative. *)
Definition balances_non_negative (d : Database) : Prop :=
  forall a, In a (accounts d) -> 0 <= Account.balance a.

(** The Transaction Log's [setStatus]: [_update_transaction_status] with
    its default [commit=True], on a session of its own. *)
Definition set_status (transaction_id : string) (status : TransactionStatus)
    : M Transaction.t :=
  get_db (TransactionService._update_transaction_status transaction_id status true).

(** The row [setStatus] leaves for the stored row [t]: [t] itself when it has
    the status already (no UPDATE is emitted, [updated_at] stays), else [t]
    with the new status and [updated_at] at the time of the UPDATE. *)
Definition status_written (status : TransactionStatus) (now : Z) (t : Transaction.t)
    : Transaction.t :=
  if TransactionStatus_eq_dec status (Transaction.status t) then t
  else Transaction.with_updated_at (Some now) (Transaction.with_status status t).

(** The lifecycle of a transaction as the specification orders it: PENDING,
    then COMPLETED or FAILED, then REVERSED. *)
Definition status_rank (s : TransactionStatus) : nat :=
  match s with
  | PENDING => 0
  | COMPLETED => 1
  | FAILED => 1
  | REVERSED => 2
  end.

(** A status change that does not go back in the lifecycle. *)
Definition monotonic (old new : TransactionStatus) : bool :=
  (status_rank old <=? status_rank new)%nat.

(** The specification's reading of [setStatus]: whatever it returns, the
    status has not gone back. *)
Definition set_status_is_monotonic : Prop :=
  forall transaction_id status w t t' w',
    find_transaction transaction_id (transactions (committed w)) = Some t ->
    set_status transaction_id status w = (Return t', w') ->
    monotonic (Transaction.status t) (Transaction.status t') = true.

(** A ledger that holds one completed debit. *)
Definition completed_row : Transaction.t :=
  Transaction.mk "tx-1" "a1" DEBIT 10000 "USD" COMPLETED None None None
                 (Some 10) (Some 10).

Definition world1 : World :=
  mkWorld (mkDatabase [acct "a1" 90000 true 2] [completed_row])
          (clean_session (mkDatabase [acct "a1" 90000 true 2] [completed_row]))
          [] 1000 (fun _ => "tx-2") 0 [].

(** The requests of a history, one after the other; the world they leave. *)
Fixpoint post_all {V} `{Json V} (settings : Settings)
    (requests : list (TransactionType * TransactionBase.t V)) (w : World) : World :=
  match requests with
  | [] => w
  | (route, data) :: rest =>
      post_all settings rest (snd (post_transaction route settings data w))
  end.

(** The account row after [update_account] at time [now]. *)
Definition updated (account_data : AccountUpdate.t) (now : Z) (a : Account.t)
    : Account.t :=
  Account.mk (Account.id a) (Account.account_number a)
             (match AccountUpdate.account_name account_data with
              | Some name => name
              | None => Account.account_name a
              end)
             (Account.balance a) (Account.currency a)
             (match AccountUpdate.is_active account_data with
              | Some flag => flag
              | None => Account.is_active a
              end)
             (Account.version a + 1) (Account.created_at a) (Some now).

(** The row [create_account] inserts: the identifier drawn, the fields of
    the request, and the column defaults. *)
Definition created (account_data : AccountCreate.t) (w : World) : Account.t :=
  Account.mk (uuid4 w (uuid_calls w)) (AccountCreate.account_number account_data)
             (AccountCreate.account_name account_data)
             (AccountCreate.initial_balance account_data)
             (AccountCreate.currency account_data) true 1
             (Some (utcnow w)) (Some (utcnow w)).

(** The world [w] with the transaction table [l], on a session that has
    loaded nothing yet. *)
Definition with_transactions (l : list Transaction.t) (w : World) : World :=
  let d := mkDatabase (accounts (committed w)) l in
  with_session (clean_session d) (with_committed d w).

(** The outcome [r] of a request, had it carried the reference [v]. *)
Definition relabel (v : option string) (r : outcome Transaction.t)
    : outcome Transaction.t :=
  match r with
  | Return t => Return (Transaction.with_reference v t)
  | Raise e => Raise e
  end.

(** Some stored account has the number [n]. *)
Definition number_taken (n : string) (l : list Account.t) : bool :=
  existsb (fun r => String.eqb (Account.account_number r) n) l.

(** * Properties *)

(** ** Rows and keys *)

Lemma find_account_id (i : string) (l : list Account.t) (a : Account.t) :
  find_account i l = Some a -> Account.id a = i.
Proof.
  unfold find_account. intros Hf.
  apply find_some in Hf. destruct Hf as [_ Heq].
  now apply String.eqb_eq.
Qed.

Lemma find_account_In (i : string) (l : list Account.t) (a : Account.t) :
  find_account i l = Some a -> In a l.
Proof.
  unfold find_account. intros Hf. now apply find_some in Hf.
Qed.

Lemma find_put_account_same (l : list Account.t) (a b : Account.t) :
  find_account (Account.id b) l = Some a ->
  find_account (Account.id b) (put_account b l) = Some b.
Proof.
  unfold find_account, put_account.
  induction l as [|r l IH]; simpl; [discriminate|].
  destruct (String.eqb (Account.id r) (Account.id b)) eqn:E; simpl.
  - now rewrite String.eqb_refl.
  - rewrite E. exact IH.
Qed.

Lemma find_put_account_other (l : list Account.t) (b : Account.t) (j : string) :
  Account.id b <> j ->
  find_account j (put_account b l) = find_account j l.
Proof.
  unfold find_account, put_account. intros Hne.
  induction l as [|r l IH]; simpl; [reflexivity|].
  destruct (String.eqb (Account.id r) (Account.id b)) eqn:E; simpl.
  - apply String.eqb_eq in E.
    destruct (String.eqb (Account.id b) j) eqn:Ej.
    + apply String.eqb_eq in Ej. contradiction.
    + rewrite E, Ej. exact IH.
  - destruct (String.eqb (Account.id r) j); [reflexivity | exact IH].
Qed.

Lemma In_put_account (l : list Account.t) (b r : Account.t) :
  In r (put_account b l) -> r = b \/ In r l.
Proof.
  unfold put_account. intros Hin.
  apply in_map_iff in Hin. destruct Hin as [x [Hx Hin]].
  destruct (String.eqb (Account.id x) (Account.id b)); subst; auto.
Qed.

Lemma put_account_twice (l : list Account.t) (a1 a2 : Account.t) :
  Account.id a1 = Account.id a2 ->
  put_account a2 (put_account a1 l) = put_account a2 l.
Proof.
  intros Hid. unfold put_account. rewrite map_map. apply map_ext. intros r.
  rewrite Hid. destruct (String.eqb (Account.id r) (Account.id a2)) eqn:E.
  - now rewrite Hid, String.eqb_refl.
  - now rewrite E.
Qed.

Lemma mem_one (k i : string) : mem k [i] = String.eqb k i.
Proof. unfold mem. simpl. apply orb_false_r. Qed.

Lemma mem_two (k i : string) : mem k [i; i] = String.eqb k i.
Proof. unfold mem. simpl. now destruct (String.eqb k i). Qed.

(** When the key of [b] is the only dirty one, the UPDATE that follows an
    assignment writes the attributes of [b], with the new [updated_at], to
    its row and nothing else. *)
Lemma flush_put_account (now : Z) (d : list string) (l : list Account.t)
    (b : Account.t) :
  (forall k, mem k d = String.eqb k (Account.id b)) ->
  map (update_account_row now d) (put_account b l)
  = put_account (Account.with_updated_at (Some now) b) l.
Proof.
  intros Hd. unfold put_account. rewrite map_map. apply map_ext. intros r.
  unfold update_account_row. simpl.
  destruct (String.eqb (Account.id r) (Account.id b)) eqn:E.
  - now rewrite Hd, String.eqb_refl.
  - now rewrite Hd, E.
Qed.

(** ... and the balance constraint is evaluated on [b] alone. *)
Lemma check_put_account (d : list string) (l : list Account.t) (b : Account.t) :
  (forall k, mem k d = String.eqb k (Account.id b)) ->
  check_balance_non_negative d (put_account b l)
  = if existsb (fun r => String.eqb (Account.id r) (Account.id b)) l
    then 0 <=? Account.balance b else true.
Proof.
  intros Hd. unfold check_balance_non_negative, put_account.
  induction l as [|r l IH]; simpl in *; [reflexivity|].
  rewrite IH. destruct (String.eqb (Account.id r) (Account.id b)) eqn:E; simpl.
  - rewrite Hd, String.eqb_refl. simpl.
    destruct (existsb _ l); destruct (0 <=? Account.balance b); reflexivity.
  - now rewrite Hd, E.
Qed.

Lemma find_account_existsb (i : string) (l : list Account.t) (a : Account.t) :
  find_account i l = Some a ->
  existsb (fun r => String.eqb (Account.id r) i) l = true.
Proof.
  unfold find_account. induction l as [|r l IH]; simpl; [discriminate|].
  destruct (String.eqb (Account.id r) i); simpl; auto.
Qed.

Lemma update_account_row_clean (now : Z) (l : list Account.t) :
  map (update_account_row now []) l = l.
Proof.
  rewrite <- (map_id l) at 2. apply map_ext. reflexivity.
Qed.

Lemma update_transaction_row_clean (now : Z) (l : list Transaction.t) :
  map (update_transaction_row now []) l = l.
Proof.
  rewrite <- (map_id l) at 2. apply map_ext. reflexivity.
Qed.

(** ** The fault schedule *)

Lemma no_fault_tl (n : nat) (f : list (option DbFault)) :
  no_fault (S n) f = true -> no_fault n (tl f) = true.
Proof.
  destruct f as [|[x|] rest]; simpl; try discriminate; auto.
  intros _. now destruct n.
Qed.

Lemma round_trip_ok (n : nat) (w : World) :
  no_fault (S n) (faults w) = true ->
  round_trip w = (Return tt, with_faults (tl (faults w)) w).
Proof.
  unfold round_trip. destruct (faults w) as [|[x|] rest]; simpl; try discriminate; auto.
Qed.

Lemma round_trip_raises (w : World) (cls : SQLAlchemyErrorClass) (msg : string)
    (rest : list (option DbFault)) :
  faults w = Some (cls, msg) :: rest ->
  round_trip w = (Raise (SQLAlchemyError cls msg), with_faults rest w).
Proof.
  unfold round_trip. now intros ->.
Qed.

(** A round trip raises nothing but [SQLAlchemyError], and touches nothing
    but the schedule. *)
Lemma round_trip_cases (w : World) :
  round_trip w = (Return tt, with_faults (tl (faults w)) w)
  \/ exists cls msg, round_trip w
                     = (Raise (SQLAlchemyError cls msg), with_faults (tl (faults w)) w).
Proof.
  unfold round_trip. destruct (faults w) as [|[[cls msg]|] rest]; simpl; eauto.
Qed.

(** ** The retry decorator never sees a retryable exception *)

(** Whatever the guarded block does, the [except] clauses of the two
    services let no [SQLAlchemyError] out. *)
Lemma on_exception_hides_SQLAlchemyError (body : M Transaction.t) (w w' : World)
    (e : exn) :
  try_except body TransactionService.on_exception w = (Raise e, w') ->
  is_SQLAlchemyError e = false.
Proof.
  unfold try_except. destruct (body w) as [[a|e0] w0]; [discriminate|].
  destruct e0; simpl; unfold bind, db_rollback, raise; simpl; intros H;
    inversion H; subst; reflexivity.
Qed.

(** A function that raises nothing the predicate accepts runs exactly once
    under [retrying]. *)
Lemma retrying_inert {A} (retry_if : exn -> bool) (wait : Z -> Z) (f : M A) :
  (forall w e w', f w = (Raise e, w') -> retry_if e = false) ->
  forall left attempt_number w,
    retrying retry_if wait left attempt_number f w = f w.
Proof.
  intros Hf left attempt_number w.
  destruct left; simpl; destruct (f w) as [[a|e] w'] eqn:E; try reflexivity;
    now rewrite (Hf _ _ _ E).
Qed.

Lemma debit_account_is_one_attempt {V} `{Json V} (settings : Settings)
    (debit_data : DebitCreate V) (w : World) :
  TransactionService.debit_account settings debit_data w
  = TransactionService.debit_account_body debit_data w.
Proof.
  unfold TransactionService.debit_account, TransactionService.decorator, retry.
  apply retrying_inert. intros w0 e w'.
  unfold TransactionService.debit_account_body.
  apply on_exception_hides_SQLAlchemyError.
Qed.

Lemma credit_account_is_one_attempt {V} `{Json V} (settings : Settings)
    (credit_data : CreditCreate V) (w : World) :
  TransactionService.credit_account settings credit_data w
  = TransactionService.credit_account_body credit_data w.
Proof.
  unfold TransactionService.credit_account, TransactionService.decorator, retry.
  apply retrying_inert. intros w0 e w'.
  unfold TransactionService.credit_account_body.
  apply on_exception_hides_SQLAlchemyError.
Qed.

(** ** One request, step by step *)

Lemma check_posting (l : list Account.t) (a : Account.t) (i : string) (B V' : Z) :
  find_account i l = Some a ->
  check_balance_non_negative [Account.id a; Account.id a]
    (put_account (Account.with_version V' (Account.with_balance B a))
                 (put_account (Account.with_balance B a) l))
  = (0 <=? B).
Proof.
  intros Hfind. pose proof (find_account_id _ _ _ Hfind) as Hid. subst i.
  rewrite put_account_twice by reflexivity.
  rewrite check_put_account by (intros k; apply mem_two).
  simpl. now rewrite (find_account_existsb _ _ _ Hfind).
Qed.

Lemma flush_posting (now : Z) (c : Database) (a : Account.t) (B V' : Z)
    (x : Transaction.t) :
  flush now
    (mkSession
       (mkDatabase
          (put_account (Account.with_version V' (Account.with_balance B a))
                       (put_account (Account.with_balance B a) (accounts c)))
          (transactions c))
       [Account.id a; Account.id a] [] [x])
  = mkDatabase
      (put_account
         (Account.with_updated_at (Some now)
            (Account.with_version V' (Account.with_balance B a)))
         (accounts c))
      (insert_transaction now x :: transactions c).
Proof.
  unfold flush. simpl. f_equal.
  - rewrite put_account_twice by reflexivity.
    apply flush_put_account. intros k. apply mem_two.
  - now rewrite update_transaction_row_clean.
Qed.

(** Unfold the session operations and compute. *)
Ltac run :=
  unfold TransactionService.debit_account_body, TransactionService.credit_account_body,
    TransactionService.debit_account_try, TransactionService.credit_account_try,
    TransactionService._record_transaction,
    try_except, bind, ret, raise, query_account_first, round_trip,
    db_rollback, uuid_uuid4, db_add, Account_setattr, Transaction_setattr,
    db_commit, db_refresh_transaction, with_faults, with_session, with_committed,
    clean_session, leave, storage_error,
    HTTP_400_BAD_REQUEST, HTTP_404_NOT_FOUND, HTTP_500_INTERNAL_SERVER_ERROR;
  simpl.

(** The commit and the refresh, when the schedule is exhausted. *)
Ltac commit_no_fault Hfind :=
  rewrite !String.eqb_refl; run;
  rewrite (check_posting _ _ _ _ _ Hfind), flush_posting;
  match goal with |- context [0 <=? ?B] => destruct (0 <=? B) end; run;
  try reflexivity;
  rewrite !String.eqb_refl; reflexivity.

(** The commit and the refresh, by cases on the schedule [f1]. *)
Ltac commit_and_refresh Hfind f1 :=
  rewrite !String.eqb_refl; run;
  let f2 := fresh "f" in
  destruct f1 as [|[[? ?]|] f2]; run; try reflexivity;
  rewrite (check_posting _ _ _ _ _ Hfind), flush_posting;
  match goal with |- context [0 <=? ?B] => destruct (0 <=? B) end; run;
  try reflexivity;
  try (destruct f2 as [|[[? ?]|] ?]; run; try reflexivity);
  rewrite !String.eqb_refl; reflexivity.

(** On a session without pending changes, one attempt of a debit is the
    trace. *)
Lemma debit_trace {V} `{Json V} (data : DebitCreate V) (w : World) :
  session w = clean_session (committed w) ->
  TransactionService.debit_account_body data w = ledger_trace DEBIT data w.
Proof.
  intros Hs. destruct w as [c s f now u n sl]; simpl in Hs; subst s.
  unfold ledger_trace, rule_failure. run.
  destruct f as [|[[c0 m0]|] f1]; run; try reflexivity;
  (destruct (find_account (TransactionBase.account_id data) (accounts c)) as [a|] eqn:Hfind; run;
   [|reflexivity];
  destruct (Account.is_active a); run; [|reflexivity];
  destruct (String.eqb (Account.currency a) (TransactionBase.currency data)); run; [|reflexivity];
  destruct (Account.balance a <? TransactionBase.amount data) eqn:Hb; run; [reflexivity|]).
  - commit_no_fault Hfind.
  - commit_and_refresh Hfind f1.
Qed.

Lemma credit_trace {V} `{Json V} (data : CreditCreate V) (w : World) :
  session w = clean_session (committed w) ->
  TransactionService.credit_account_body data w = ledger_trace CREDIT data w.
Proof.
  intros Hs. destruct w as [c s f now u n sl]; simpl in Hs; subst s.
  unfold ledger_trace, rule_failure. run.
  destruct f as [|[[c0 m0]|] f1]; run; try reflexivity;
  (destruct (find_account (TransactionBase.account_id data) (accounts c)) as [a|] eqn:Hfind; run;
   [|reflexivity];
  destruct (Account.is_active a); run; [|reflexivity];
  destruct (String.eqb (Account.currency a) (TransactionBase.currency data)); run; [|reflexivity]).
  - commit_no_fault Hfind.
  - commit_and_refresh Hfind f1.
Qed.

(** The trace reads nothing of the session it starts from and leaves a
    closed one. *)
Lemma ledger_trace_fresh {V} `{Json V} (route : TransactionType)
    (data : TransactionBase.t V) (s : Session) (w : World) :
  ledger_trace route data (with_session s w) = ledger_trace route data w.
Proof. reflexivity. Qed.

Lemma ledger_trace_closed {V} `{Json V} (route : TransactionType)
    (data : TransactionBase.t V) (w : World) :
  (let (r, w') := ledger_trace route data w in
   (r, with_session (clean_session (committed w')) w'))
  = ledger_trace route data w.
Proof.
  unfold ledger_trace.
  repeat match goal with
         | |- context [match ?x with _ => _ end] =>
             lazymatch x with
             | context [match _ with _ => _ end] => fail
             | _ => destruct x
             end
         end; reflexivity.
Qed.

(** Every request on either route is its trace. *)
Lemma post_transaction_trace {V} `{Json V} (route : TransactionType)
    (settings : Settings) (data : TransactionBase.t V) (w : World) :
  post_transaction route settings data w = ledger_trace route data w.
Proof.
  destruct route; unfold post_transaction, Endpoints.debit_account,
    Endpoints.credit_account, get_db.
  - rewrite debit_account_is_one_attempt, debit_trace by reflexivity.
    rewrite ledger_trace_fresh. apply ledger_trace_closed.
  - rewrite credit_account_is_one_attempt, credit_trace by reflexivity.
    rewrite ledger_trace_fresh. apply ledger_trace_closed.
Qed.

(** ** What a request can do to the committed rows *)

(** Case analysis on the scrutinees of a trace in hypothesis [H]. *)
Ltac trace_cases H :=
  unfold ledger_trace in H;
  repeat match type of H with
         | context [match ?x with _ => _ end] =>
             lazymatch x with
             | context [match _ with _ => _ end] => fail
             | _ => destruct x eqn:?
             end
         end;
  inversion H; subst; clear H.

(** A request either leaves the committed rows as they were and raises, or
    commits the posting on the account it found; in the second case it
    returns the inserted row unless the refresh raised. *)
Lemma ledger_trace_cases {V} `{Json V} (route : TransactionType)
    (data : TransactionBase.t V) (w w' : World) (r : outcome Transaction.t) :
  ledger_trace route data w = (r, w') ->
  (committed w' = committed w /\ exists e, r = Raise e)
  \/ exists a,
       find_account (TransactionBase.account_id data) (accounts (committed w)) = Some a
       /\ rule_failure route data a = None
       /\ 0 <= new_balance route (TransactionBase.amount data) (Account.balance a)
       /\ committed w' = settled route data a w
       /\ (r = Return (receipt route data a w) \/ r = Raise storage_error).
Proof.
  intros Ht. trace_cases Ht; simpl;
    try (left; split; [reflexivity | eauto]; fail);
    right; eexists; repeat split; eauto; lia.
Qed.

Lemma ledger_trace_returns {V} `{Json V} (route : TransactionType)
    (data : TransactionBase.t V) (w : World) (a : Account.t) :
  no_fault 3 (faults w) = true ->
  find_account (TransactionBase.account_id data) (accounts (committed w)) = Some a ->
  rule_failure route data a = None ->
  0 <= new_balance route (TransactionBase.amount data) (Account.balance a) ->
  ledger_trace route data w
  = (Return (receipt route data a w),
     leave (settled route data a w) (tl (tl (tl (faults w)))) (S (uuid_calls w)) w).
Proof.
  intros Hf Hfind Hrule Hb. unfold ledger_trace. rewrite Hfind, Hrule.
  apply Z.leb_le in Hb. rewrite Hb.
  destruct (faults w) as [|[x|] [|[y|] [|[z|] f]]]; simpl in *;
    try discriminate; reflexivity.
Qed.

Lemma find_account_settled {V} `{Json V} (route : TransactionType)
    (data : TransactionBase.t V) (w : World) (a : Account.t) :
  find_account (TransactionBase.account_id data) (accounts (committed w)) = Some a ->
  find_account (TransactionBase.account_id data) (accounts (settled route data a w))
  = Some (posted route (TransactionBase.amount data) (utcnow w) a).
Proof.
  intros Hfind. pose proof (find_account_id _ _ _ Hfind) as Hid.
  unfold settled. simpl.
  replace (TransactionBase.account_id data)
    with (Account.id (posted route (TransactionBase.amount data) (utcnow w) a))
    in * by exact Hid.
  eapply find_put_account_same. exact Hfind.
Qed.

Lemma rule_failure_debit {V} (data : TransactionBase.t V) (a : Account.t) :
  rule_failure DEBIT data a = None ->
  Account.is_active a = true
  /\ Account.currency a = TransactionBase.currency data
  /\ TransactionBase.amount data <= Account.balance a.
Proof.
  unfold rule_failure.
  destruct (Account.is_active a); simpl; [|discriminate].
  destruct (String.eqb (Account.currency a) (TransactionBase.currency data)) eqn:E;
    simpl; [|discriminate].
  destruct (Account.balance a <? TransactionBase.amount data) eqn:Hlt; [discriminate|].
  intros _. apply String.eqb_eq in E. apply Z.ltb_ge in Hlt. auto.
Qed.

Lemma validate_amount {V} (data : TransactionBase.t V) :
  TransactionBase.validate data = true -> 0 < TransactionBase.amount data.
Proof.
  unfold TransactionBase.validate. intros Hv.
  repeat (apply andb_prop in Hv; destruct Hv as [Hv _]).
  now apply Z.ltb_lt.
Qed.

(** C1.  Committed balances never go negative: when every committed balance
    is non-negative and the request passed validation (so its amount is
    positive), every committed balance is non-negative after a debit or a
    credit, whatever the outcome of the request.  A debit is applied only
    when the amount is at most the balance: a debit that returns found an
    account with [amount <= balance], and a debit of more than the balance
    changes no committed row. *)
Theorem committed_balances_stay_non_negative {V} `{Json V} (route : TransactionType)
    (settings : Settings) (data : TransactionBase.t V) (w w' : World)
    (r : outcome Transaction.t) :
  balances_non_negative (committed w) ->
  TransactionBase.validate data = true ->
  post_transaction route settings data w = (r, w') ->
  balances_non_negative (committed w')
  /\ (route = DEBIT ->
      forall t, r = Return t ->
      exists a,
        find_account (TransactionBase.account_id data) (accounts (committed w)) = Some a
        /\ TransactionBase.amount data <= Account.balance a)
  /\ (route = DEBIT ->
      forall a,
        find_account (TransactionBase.account_id data) (accounts (committed w)) = Some a ->
        Account.balance a < TransactionBase.amount data ->
        committed w' = committed w).
Proof.
  intros Hinv Hval Hrun. rewrite post_transaction_trace in Hrun.
  pose proof (validate_amount _ Hval) as Hamount.
  destruct (ledger_trace_cases _ _ _ _ _ Hrun)
    as [[Hsame [e He]] | [a [Hfind [Hrule [_ [Hset _]]]]]].
  - rewrite Hsame. repeat split; auto.
    intros _ t Ht. rewrite Ht in He. discriminate.
  - split; [|split].
    + rewrite Hset. intros x Hx. unfold settled in Hx. simpl in Hx.
      apply In_put_account in Hx. destruct Hx as [-> | Hx]; [|now apply Hinv].
      simpl. specialize (Hinv a (find_account_In _ _ _ Hfind)).
      destruct route; simpl.
      * apply rule_failure_debit in Hrule. lia.
      * lia.
    + intros -> t _. exists a. split; [exact Hfind|].
      apply rule_failure_debit in Hrule. lia.
    + intros -> a' Hfind' Hlt. rewrite Hfind in Hfind'. inversion Hfind'; subst a'.
      apply rule_failure_debit in Hrule. lia.
Qed.

Lemma C1_witness :
  balances_non_negative
    (committed (snd (post_transaction DEBIT default_settings (order "a1" 10000 "USD")
                       (world0 [acct "a1" 100000 true 1] [])))).
Proof.
  refine (proj1 (committed_balances_stay_non_negative DEBIT default_settings
                   (order "a1" 10000 "USD") (world0 [acct "a1" 100000 true 1] [])
                   _ _ _ _ (surjective_pairing _))).
  - intros a [<- | []]. simpl. lia.
  - reflexivity.
Defined.

(** C2.  A storage failure during the commit of a debit or credit rolls the
    whole unit back: the caller gets the storage error (HTTP 500), the
    committed rows are the ones from before, so that the balance and the
    version of the account are unchanged and no transaction row exists, and
    the session holds no pending object. *)
Theorem commit_failure_rolls_back {V} `{Json V} (route : TransactionType)
    (settings : Settings) (data : TransactionBase.t V) (w : World) (a : Account.t) :
  no_fault 1 (faults w) = true ->
  find_account (TransactionBase.account_id data) (accounts (committed w)) = Some a ->
  rule_failure route data a = None ->
  commit_raises route data a w ->
  exists w',
    post_transaction route settings data w = (Raise storage_error, w')
    /\ committed w' = committed w
    /\ session w' = clean_session (committed w)
    /\ balance_of (TransactionBase.account_id data) w'
       = balance_of (TransactionBase.account_id data) w
    /\ version_of (TransactionBase.account_id data) w'
       = version_of (TransactionBase.account_id data) w.
Proof.
  intros Hf Hfind Hrule Hc. rewrite post_transaction_trace.
  unfold commit_raises in Hc. unfold ledger_trace. rewrite Hfind, Hrule.
  destruct (faults w) as [|[x|] f1]; simpl in *; try discriminate.
  - destruct Hc as [[flt [rest Hc]] | Hneg]; [discriminate Hc|].
    apply Z.leb_gt in Hneg. rewrite Hneg. eexists; repeat split.
  - destruct Hc as [[flt [rest ->]] | Hneg].
    + eexists; repeat split.
    + apply Z.leb_gt in Hneg. rewrite Hneg.
      destruct f1 as [|[y|] f2]; eexists; repeat split.
Qed.

Lemma C2_witness :
  exists w',
    post_transaction CREDIT default_settings (order "a1" 2500 "USD")
      (world0 [acct "a1" 100000 true 1] [None; Some (OperationalError, "connection lost")])
    = (Raise storage_error, w')
    /\ committed w' = mkDatabase [acct "a1" 100000 true 1] [].
Proof.
  destruct (commit_failure_rolls_back CREDIT default_settings (order "a1" 2500 "USD")
              (world0 [acct "a1" 100000 true 1]
                 [None; Some (OperationalError, "connection lost")])
              (acct "a1" 100000 true 1) eq_refl eq_refl eq_refl
              (or_introl (ex_intro _ _ (ex_intro _ _ eq_refl))))
    as [w' [Hrun [Hc _]]].
  exists w'. split; [exact Hrun | exact Hc].
Defined.

(** Unfold the session operations in a hypothesis and compute. *)
Ltac run_in H :=
  repeat progress
    (unfold TransactionService.debit_account_try, TransactionService.credit_account_try,
       TransactionService._record_transaction,
       bind, ret, raise, query_account_first, round_trip,
       uuid_uuid4, db_add, Account_setattr, Transaction_setattr,
       db_commit, db_refresh_transaction, with_faults, with_session, with_committed,
       clean_session, HTTP_400_BAD_REQUEST, HTTP_404_NOT_FOUND in H;
     simpl in H).

(** Case analysis on an innermost scrutinee of hypothesis [H]. *)
Ltac split_scrutinee H :=
  match type of H with
  | context [match ?x with _ => _ end] =>
      lazymatch x with
      | context [match _ with _ => _ end] => fail
      | _ => destruct x eqn:?
      end
  end.

(** Whatever the session holds, when the guarded block raises an
    [HTTPException] it has done nothing but the account query: the rules are
    checked before the transaction is recorded and before any attribute is
    assigned. *)
Lemma rule_is_checked_before_any_mutation {V} `{Json V} (route : TransactionType)
    (data : TransactionBase.t V) (w w' : World) (code : Z) (detail : string) :
  guarded_block route data w = (Raise (HTTPException code detail), w') ->
  w' = with_faults (tl (faults w)) w.
Proof.
  intros Hrun. destruct w as [c s f now u n sl].
  destruct route; unfold guarded_block in Hrun; run_in Hrun;
    repeat (split_scrutinee Hrun; run_in Hrun; try discriminate);
    inversion Hrun; subst; reflexivity.
Qed.

(** When the account query goes through, a failed rule is what the caller
    gets, and a missing account is the 404. *)
Lemma failed_rule_is_raised {V} `{Json V} (route : TransactionType)
    (settings : Settings) (data : TransactionBase.t V) (w : World) (a : Account.t)
    (e : exn) :
  no_fault 1 (faults w) = true ->
  find_account (TransactionBase.account_id data) (accounts (committed w)) = Some a ->
  rule_failure route data a = Some e ->
  post_transaction route settings data w
  = (Raise e, leave (committed w) (tl (faults w)) (uuid_calls w) w).
Proof.
  intros Hf Hfind Hrule. rewrite post_transaction_trace.
  unfold ledger_trace. rewrite Hfind, Hrule.
  destruct (faults w) as [|[x|] f1]; simpl in *; try discriminate; reflexivity.
Qed.

Lemma missing_account_is_not_found {V} `{Json V} (route : TransactionType)
    (settings : Settings) (data : TransactionBase.t V) (w : World) :
  no_fault 1 (faults w) = true ->
  find_account (TransactionBase.account_id data) (accounts (committed w)) = None ->
  post_transaction route settings data w
  = (Raise (HTTPException 404 "Account not found"),
     leave (committed w) (tl (faults w)) (uuid_calls w) w).
Proof.
  intros Hf Hfind. rewrite post_transaction_trace.
  unfold ledger_trace. rewrite Hfind.
  destruct (faults w) as [|[x|] f1]; simpl in *; try discriminate; reflexivity.
Qed.

(** Every exception a rule raises is a business-rule error. *)
Lemma rule_failure_is_business_rule_error {V} (route : TransactionType)
    (data : TransactionBase.t V) (a : Account.t) (e : exn) :
  rule_failure route data a = Some e -> business_rule_error e = true.
Proof.
  unfold rule_failure.
  destruct (negb (Account.is_active a)); [intros [= <-]; reflexivity|].
  destruct (negb (String.eqb (Account.currency a) (TransactionBase.currency data)));
    [intros [= <-]; reflexivity|].
  destruct route; [|discriminate].
  destruct (Account.balance a <? TransactionBase.amount data);
    [intros [= <-]; reflexivity | discriminate].
Qed.

(** C4.  A debit or credit that fails with a business-rule error (the 404
    and 400 responses: not found, inactive, currency mismatch, insufficient
    funds) has changed nothing: the committed rows are as before, the
    session holds no pending change, no transaction identifier was drawn,
    and the request made a single attempt: one round trip, the account
    query, and no wait.  The error is raised before any mutation: on any
    session, a guarded block that raises it has only made the account
    query. *)
Theorem business_rule_failure_changes_nothing {V} `{Json V} (route : TransactionType)
    (settings : Settings) (data : TransactionBase.t V) (w w' : World) (e : exn) :
  post_transaction route settings data w = (Raise e, w') ->
  business_rule_error e = true ->
  committed w' = committed w
  /\ session w' = clean_session (committed w)
  /\ uuid_calls w' = uuid_calls w
  /\ faults w' = tl (faults w)
  /\ slept w' = slept w
  /\ (forall w0 w1,
        guarded_block route data w0 = (Raise e, w1) ->
        w1 = with_faults (tl (faults w0)) w0).
Proof.
  intros Hrun He. rewrite post_transaction_trace in Hrun.
  assert (Hbefore : forall w0 w1,
             guarded_block route data w0 = (Raise e, w1) ->
             w1 = with_faults (tl (faults w0)) w0).
  { destruct e; try discriminate He. intros w0 w1.
    apply rule_is_checked_before_any_mutation. }
  trace_cases Hrun; try discriminate; simpl; repeat split; exact Hbefore.
Qed.

Lemma C4_witness :
  committed (snd (post_transaction DEBIT default_settings (order "a1" 200000 "USD")
                    (world0 [acct "a1" 100000 true 1] [])))
  = mkDatabase [acct "a1" 100000 true 1] [].
Proof.
  refine (proj1 (business_rule_failure_changes_nothing DEBIT default_settings
                   (order "a1" 200000 "USD") (world0 [acct "a1" 100000 true 1] [])
                   _ (HTTPException 400 "Insufficient funds") _ _)).
  - reflexivity.
  - reflexivity.
Defined.

(** A request that meets no fault, finds its account and passes the rules
    returns the inserted row and commits the posting. *)
Lemma post_transaction_returns {V} `{Json V} (route : TransactionType)
    (settings : Settings) (data : TransactionBase.t V) (w : World) (a : Account.t) :
  no_fault 3 (faults w) = true ->
  find_account (TransactionBase.account_id data) (accounts (committed w)) = Some a ->
  rule_failure route data a = None ->
  0 <= new_balance route (TransactionBase.amount data) (Account.balance a) ->
  exists w',
    post_transaction route settings data w = (Return (receipt route data a w), w')
    /\ committed w' = settled route data a w
    /\ balance_of (TransactionBase.account_id data) w'
       = Some (new_balance route (TransactionBase.amount data) (Account.balance a))
    /\ version_of (TransactionBase.account_id data) w' = Some (Account.version a + 1).
Proof.
  intros Hf Hfind Hrule Hb. rewrite post_transaction_trace.
  rewrite (ledger_trace_returns route data w a Hf Hfind Hrule Hb).
  eexists. split; [reflexivity|]. split; [reflexivity|].
  unfold balance_of, version_of. simpl.
  rewrite (find_account_settled route data w a Hfind). split; reflexivity.
Qed.

(** C6.  On an active USD account with balance 1000.00, the debit of 100.00
    USD returns a DEBIT transaction with status COMPLETED, amount 100.00 and
    the currency of the account; the committed balance is 900.00 and the
    version is one more than before. *)
Theorem debit_scenario {V} `{Json V} (settings : Settings) (debit_data : DebitCreate V)
    (w : World) (a : Account.t) :
  find_account (TransactionBase.account_id debit_data) (accounts (committed w)) = Some a ->
  Account.is_active a = true ->
  Account.balance a = 100000 ->
  Account.currency a = "USD" ->
  TransactionBase.amount debit_data = 10000 ->
  TransactionBase.currency debit_data = "USD" ->
  no_fault 3 (faults w) = true ->
  exists t w',
    Endpoints.debit_account settings debit_data w = (Return t, w')
    /\ Transaction.transaction_type t = DEBIT
    /\ Transaction.status t = COMPLETED
    /\ Transaction.amount t = 10000
    /\ Transaction.currency t = Account.currency a
    /\ balance_of (TransactionBase.account_id debit_data) w' = Some 90000
    /\ version_of (TransactionBase.account_id debit_data) w' = Some (Account.version a + 1).
Proof.
  intros Hfind Hact Hbal Hcur Hamt Hdcur Hf.
  destruct (post_transaction_returns DEBIT settings debit_data w a Hf Hfind)
    as [w' [Hrun [_ [Hb Hv]]]].
  - unfold rule_failure. now rewrite Hact, Hcur, Hdcur, Hbal, Hamt.
  - simpl. lia.
  - exists (receipt DEBIT debit_data a w), w'. simpl in Hrun, Hb.
    rewrite Hbal, Hamt in Hb. repeat split; auto.
Qed.

Lemma C6_witness :
  exists t w',
    Endpoints.debit_account default_settings (order "a1" 10000 "USD")
      (world0 [acct "a1" 100000 true 1] []) = (Return t, w')
    /\ balance_of "a1" w' = Some 90000
    /\ version_of "a1" w' = Some 2.
Proof.
  destruct (debit_scenario default_settings (order "a1" 10000 "USD")
              (world0 [acct "a1" 100000 true 1] []) (acct "a1" 100000 true 1)
              eq_refl eq_refl eq_refl eq_refl eq_refl eq_refl eq_refl)
    as [t [w' [Hrun [_ [_ [_ [_ [Hb Hv]]]]]]]].
  exists t, w'. repeat split; assumption.
Defined.

(** C8.  A debit of exactly the current balance of an active account in the
    account's currency returns a COMPLETED transaction and leaves the
    committed balance at 0: the insufficient-funds test is strict. *)
Theorem debit_of_whole_balance {V} `{Json V} (settings : Settings)
    (debit_data : DebitCreate V) (w : World) (a : Account.t) :
  find_account (TransactionBase.account_id debit_data) (accounts (committed w)) = Some a ->
  Account.is_active a = true ->
  Account.currency a = TransactionBase.currency debit_data ->
  TransactionBase.amount debit_data = Account.balance a ->
  no_fault 3 (faults w) = true ->
  exists t w',
    Endpoints.debit_account settings debit_data w = (Return t, w')
    /\ Transaction.status t = COMPLETED
    /\ balance_of (TransactionBase.account_id debit_data) w' = Some 0.
Proof.
  intros Hfind Hact Hcur Hamt Hf.
  destruct (post_transaction_returns DEBIT settings debit_data w a Hf Hfind)
    as [w' [Hrun [_ [Hb _]]]].
  - unfold rule_failure. rewrite Hact, Hcur, String.eqb_refl, Hamt, Z.ltb_irrefl.
    reflexivity.
  - simpl. lia.
  - exists (receipt DEBIT debit_data a w), w'. simpl in Hrun, Hb.
    rewrite Hamt, Z.sub_diag in Hb. repeat split; auto.
Qed.

Lemma C8_witness :
  exists t w',
    Endpoints.debit_account default_settings (order "a1" 100000 "USD")
      (world0 [acct "a1" 100000 true 1] []) = (Return t, w')
    /\ balance_of "a1" w' = Some 0.
Proof.
  destruct (debit_of_whole_balance default_settings (order "a1" 100000 "USD")
              (world0 [acct "a1" 100000 true 1] []) (acct "a1" 100000 true 1)
              eq_refl eq_refl eq_refl eq_refl eq_refl)
    as [t [w' [Hrun [_ Hb]]]].
  exists t, w'. split; assumption.
Defined.

(** C10.  The transaction a debit or credit returns is the stored row, and
    its [metadata] is the JSON text of the caller's dictionary when that is
    non-empty and null otherwise; a request with [{}] and the same request
    without metadata have the same outcome and leave the same state. *)
Theorem empty_metadata_is_stored_as_null {V} `{Json V} (route : TransactionType)
    (settings : Settings) (data : TransactionBase.t V) (w w' : World)
    (t : Transaction.t) :
  post_transaction route settings data w = (Return t, w') ->
  find_transaction (Transaction.id t) (transactions (committed w')) = Some t
  /\ Transaction.metadata t
     = match TransactionBase.metadata data with
       | Some (kv :: rest) => Some (json_dumps (kv :: rest))
       | Some [] => None
       | None => None
       end
  /\ post_transaction route settings (TransactionBase.with_metadata (Some []) data) w
     = post_transaction route settings (TransactionBase.with_metadata None data) w.
Proof.
  intros Hrun. rewrite !post_transaction_trace in *. split; [|split].
  - destruct (ledger_trace_cases _ _ _ _ _ Hrun)
      as [[_ [e He]] | [a [_ [_ [_ [Hset [Hr | Hr]]]]]]]; try discriminate.
    inversion Hr; subst t. rewrite Hset. unfold settled, find_transaction. simpl.
    now rewrite String.eqb_refl.
  - destruct (ledger_trace_cases _ _ _ _ _ Hrun)
      as [[_ [e He]] | [a [_ [_ [_ [_ [Hr | Hr]]]]]]]; try discriminate.
    inversion Hr; subst t. reflexivity.
  - reflexivity.
Qed.

Lemma C10_witness :
  exists t w',
    post_transaction CREDIT default_settings
      (TransactionBase.mk "a1" 2500 "USD" None None (Some []))
      (world0 [acct "a1" 100000 true 1] []) = (Return t, w')
    /\ Transaction.metadata t = None.
Proof.
  eassert (Hrun : post_transaction CREDIT default_settings
                    (TransactionBase.mk "a1" 2500 "USD" None None (Some []))
                    (world0 [acct "a1" 100000 true 1] []) = (Return _, _))
    by (vm_compute; reflexivity).
  eexists _, _. split; [exact Hrun|].
  exact (proj1 (proj2 (empty_metadata_is_stored_as_null _ _ _ _ _ _ Hrun))).
Defined.

(** ** Account updates and status updates *)

Lemma find_transaction_id (i : string) (l : list Transaction.t) (x : Transaction.t) :
  find_transaction i l = Some x -> Transaction.id x = i.
Proof.
  unfold find_transaction. intros Hf.
  apply find_some in Hf. destruct Hf as [_ Heq].
  now apply String.eqb_eq.
Qed.

Lemma find_put_transaction_same (l : list Transaction.t) (x y : Transaction.t) :
  find_transaction (Transaction.id y) l = Some x ->
  find_transaction (Transaction.id y) (put_transaction y l) = Some y.
Proof.
  unfold find_transaction, put_transaction.
  induction l as [|r l IH]; simpl; [discriminate|].
  destruct (String.eqb (Transaction.id r) (Transaction.id y)) eqn:E; simpl.
  - now rewrite String.eqb_refl.
  - rewrite E. exact IH.
Qed.

Lemma flush_put_transaction (now : Z) (l : list Transaction.t) (y : Transaction.t) :
  map (update_transaction_row now [Transaction.id y]) (put_transaction y l)
  = put_transaction (Transaction.with_updated_at (Some now) y) l.
Proof.
  unfold put_transaction. rewrite map_map. apply map_ext. intros r.
  unfold update_transaction_row. cbv beta.
  change (Transaction.id (Transaction.with_updated_at (Some now) y))
    with (Transaction.id y).
  destruct (String.eqb (Transaction.id r) (Transaction.id y)) eqn:E; cbv iota.
  - now rewrite mem_one, String.eqb_refl.
  - now rewrite mem_one, E.
Qed.

Lemma net_change_same (x : Transaction.t) (d : Database) :
  find_transaction (Transaction.id x) (transactions d) = Some x ->
  net_change x d = false.
Proof.
  intros Hfind. unfold net_change. rewrite Hfind.
  destruct (Transaction.eq_dec x x) as [_|E]; [reflexivity | now elim E].
Qed.

Lemma net_change_other (x : Transaction.t) (d : Database) (row : Transaction.t) :
  find_transaction (Transaction.id x) (transactions d) = Some row ->
  row <> x ->
  net_change x d = true.
Proof.
  intros Hfind Hne. unfold net_change. rewrite Hfind.
  destruct (Transaction.eq_dec row x) as [E|_]; [now elim Hne | reflexivity].
Qed.

Lemma check_no_dirty_account (l : list Account.t) :
  check_balance_non_negative [] l = true.
Proof.
  unfold check_balance_non_negative. apply forallb_forall. reflexivity.
Qed.

(** Unfold the services around the session operations and compute. *)
Ltac run_service :=
  unfold Endpoints.update_account, set_status, get_db,
    AccountService.update_account, AccountService.get_account,
    TransactionService._update_transaction_status,
    try_except, bind, ret, raise, query_account_first, query_transaction_first,
    round_trip, db_rollback, Account_setattr, Transaction_setattr,
    db_commit, db_refresh_transaction, db_refresh_account,
    with_faults, with_session, with_committed, clean_session;
  simpl.

(** C9.  An update that sets neither [account_name] nor [is_active] returns
    the account with its version incremented by 1 and [updated_at] set to
    the time of the update, and that row is committed; account number,
    balance, currency, name and active flag are unchanged. *)
Theorem update_without_fields_is_a_mutation (account_id : string) (w : World)
    (a : Account.t) :
  find_account account_id (accounts (committed w)) = Some a ->
  0 <= Account.balance a ->
  no_fault 3 (faults w) = true ->
  exists a' w',
    Endpoints.update_account account_id (AccountUpdate.mk None None) w = (Return a', w')
    /\ find_account account_id (accounts (committed w')) = Some a'
    /\ Account.version a' = Account.version a + 1
    /\ Account.updated_at a' = Some (utcnow w)
    /\ Account.account_number a' = Account.account_number a
    /\ Account.balance a' = Account.balance a
    /\ Account.currency a' = Account.currency a
    /\ Account.account_name a' = Account.account_name a
    /\ Account.is_active a' = Account.is_active a.
Proof.
  intros Hfind Hbal Hf.
  pose proof (find_account_id _ _ _ Hfind) as Hid.
  set (a' := Account.with_updated_at (Some (utcnow w))
               (Account.with_version (Account.version a + 1) a)).
  assert (Hput : find_account account_id (put_account a' (accounts (committed w)))
                 = Some a').
  { subst account_id. exact (find_put_account_same _ a a' Hfind). }
  assert (Hcheck : check_balance_non_negative [Account.id a]
                     (put_account (Account.with_version (Account.version a + 1) a)
                                  (accounts (committed w))) = true).
  { rewrite check_put_account by (intros k; apply mem_one). simpl.
    subst account_id. rewrite (find_account_existsb _ _ _ Hfind).
    now apply Z.leb_le. }
  assert (Hflush : map (update_account_row (utcnow w) [Account.id a])
                     (put_account (Account.with_version (Account.version a + 1) a)
                                  (accounts (committed w)))
                   = put_account a' (accounts (committed w))).
  { apply flush_put_account. intros k. apply mem_one. }
  exists a'.
  destruct w as [c s f now u n sl]. simpl in *.
  destruct f as [|[x|] [|[y|] [|[z|] f]]]; simpl in Hf; try discriminate;
    run_service; rewrite Hfind; run_service; rewrite Hcheck; unfold flush; simpl;
    rewrite Hflush, Hid, Hput; simpl;
    (eexists; split; [reflexivity|]; simpl; rewrite Hput; repeat split).
Qed.

Lemma C9_witness :
  exists a' w',
    Endpoints.update_account "a1" (AccountUpdate.mk None None)
      (world0 [acct "a1" 100000 true 1] []) = (Return a', w')
    /\ Account.version a' = 2.
Proof.
  destruct (update_without_fields_is_a_mutation "a1"
              (world0 [acct "a1" 100000 true 1] []) (acct "a1" 100000 true 1)
              eq_refl ltac:(simpl; lia) eq_refl)
    as [a' [w' [Hrun [_ [Hv _]]]]].
  exists a', w'. split; assumption.
Defined.

(** C7, counterexample.  On the ledger [world1] the completed transaction
    [tx-1] is set back to PENDING. *)
Lemma set_status_rewrites_backwards : ~ set_status_is_monotonic.
Proof.
  intros Hmono.
  assert (Hrun : set_status "tx-1" PENDING world1
                 = (Return (Transaction.with_updated_at (Some 1000)
                              (Transaction.with_status PENDING completed_row)),
                    snd (set_status "tx-1" PENDING world1)))
    by (vm_compute; reflexivity).
  specialize (Hmono "tx-1" PENDING world1 completed_row _ _ eq_refl Hrun).
  discriminate Hmono.
Qed.

(** C7, amended.  [setStatus] writes whatever status it is given: when the
    transaction is stored and no round trip fails, it returns the
    transaction with the requested status, whatever the status was, and that
    row is committed; [updated_at] is the time of the call when the status
    changes and is left as it was when the transaction has the requested
    status already; the accounts are untouched. *)
Theorem set_status_writes_any_status (transaction_id : string)
    (status : TransactionStatus) (w : World) (t : Transaction.t) :
  find_transaction transaction_id (transactions (committed w)) = Some t ->
  no_fault 3 (faults w) = true ->
  exists t' w',
    set_status transaction_id status w = (Return t', w')
    /\ find_transaction transaction_id (transactions (committed w')) = Some t'
    /\ Transaction.status t' = status
    /\ (Transaction.status t = status -> t' = t)
    /\ (Transaction.status t <> status ->
        t' = Transaction.with_updated_at (Some (utcnow w))
               (Transaction.with_status status t))
    /\ accounts (committed w') = accounts (committed w).
Proof.
  intros Hfind Hf.
  pose proof (find_transaction_id _ _ _ Hfind) as Hid.
  exists (status_written status (utcnow w) t).
  assert (Hput : forall y, Transaction.id y = Transaction.id t ->
            find_transaction transaction_id
              (put_transaction y (transactions (committed w))) = Some y).
  { intros y Hy. subst transaction_id. rewrite <- Hy in *.
    exact (find_put_transaction_same _ t y Hfind). }
  assert (Hstatus : Transaction.status (status_written status (utcnow w) t) = status).
  { unfold status_written.
    destruct (TransactionStatus_eq_dec status (Transaction.status t)) as [E|E];
      [now symmetry | reflexivity]. }
  assert (Hsame : Transaction.status t = status ->
                  status_written status (utcnow w) t = t).
  { intros E. unfold status_written.
    destruct (TransactionStatus_eq_dec status (Transaction.status t)) as [E'|E'];
      [reflexivity | now elim E']. }
  assert (Hdiff : Transaction.status t <> status ->
                  status_written status (utcnow w) t
                  = Transaction.with_updated_at (Some (utcnow w))
                      (Transaction.with_status status t)).
  { intros E. unfold status_written.
    destruct (TransactionStatus_eq_dec status (Transaction.status t)) as [E'|E'];
      [now elim E | reflexivity]. }
  assert (Hrun : exists w',
            set_status transaction_id status w
            = (Return (status_written status (utcnow w) t), w')
            /\ find_transaction transaction_id (transactions (committed w'))
               = Some (status_written status (utcnow w) t)
            /\ accounts (committed w') = accounts (committed w)).
  { destruct (TransactionStatus_eq_dec (Transaction.status t) status) as [E|E].
    - rewrite (Hsame E).
      assert (Hwith : Transaction.with_status status t = t)
        by (destruct t; simpl in E; now subst status).
      assert (Hnet : net_change t (committed w) = false)
        by (apply net_change_same; now rewrite Hid).
      specialize (Hput t eq_refl).
      destruct w as [c s f now u n sl]. simpl in *.
      destruct f as [|[x|] [|[y|] [|[z|] f]]]; simpl in Hf; try discriminate;
        run_service; rewrite Hfind; run_service; rewrite Hwith, Hnet; simpl;
        rewrite check_no_dirty_account; unfold flush; simpl;
        rewrite update_transaction_row_clean, update_account_row_clean, Hid, Hput;
        simpl; (eexists; split; [reflexivity|]; simpl; rewrite Hput; repeat split).
    - rewrite (Hdiff E).
      assert (Hnet : net_change (Transaction.with_status status t) (committed w)
                     = true).
      { apply (net_change_other _ _ t); [now rewrite <- Hid in Hfind|].
        intros Heq. apply E. now rewrite Heq. }
      specialize (Hput (Transaction.with_updated_at (Some (utcnow w))
                          (Transaction.with_status status t)) eq_refl).
      pose proof (flush_put_transaction (utcnow w) (transactions (committed w))
                    (Transaction.with_status status t)) as Hflush.
      change (Transaction.id (Transaction.with_status status t))
        with (Transaction.id t) in Hflush.
      destruct w as [c s f now u n sl]. simpl in *.
      destruct f as [|[x|] [|[y|] [|[z|] f]]]; simpl in Hf; try discriminate;
        run_service; rewrite Hfind; run_service; rewrite Hnet; simpl;
        rewrite check_no_dirty_account; unfold flush; simpl;
        rewrite Hflush, update_account_row_clean, Hid, Hput; simpl;
        (eexists; split; [reflexivity|]; simpl; rewrite Hput; repeat split). }
  destruct Hrun as [w' [Hrun [Hfound Hacc]]].
  exists w'. repeat split; assumption.
Qed.

Lemma C7_witness :
  exists w',
    set_status "tx-1" PENDING world1
    = (Return (Transaction.with_updated_at (Some 1000)
                 (Transaction.with_status PENDING completed_row)), w').
Proof.
  destruct (set_status_writes_any_status "tx-1" PENDING world1 completed_row
              eq_refl eq_refl) as [t' [w' [Hrun [_ [_ [_ [Hdiff _]]]]]]].
  exists w'. rewrite (Hdiff ltac:(discriminate)) in Hrun. exact Hrun.
Defined.

(** C3, at the failing input.  With three attempts configured, a debit whose
    commit raises a storage error is not run again: the caller gets the 500
    of the first attempt, the three round trips that a second attempt would
    have used are still in the schedule, and no wait took place. *)
Theorem storage_failure_is_not_retried :
  let w := world0 [acct "a1" 100000 true 1]
             [None; Some (OperationalError, "connection lost"); None; None; None] in
  MAX_TRANSACTION_RETRIES default_settings = 3
  /\ exists w',
       TransactionService.debit_account default_settings (order "a1" 10000 "USD") w
       = (Raise storage_error, w')
       /\ faults w' = [None; None; None]
       /\ slept w' = []
       /\ committed w' = committed w.
Proof.
  split; [reflexivity|]. eexists. split; [vm_compute; reflexivity|]. repeat split.
Qed.

(** What does hold of the version: a request on a stored account either
    leaves the committed rows, hence the version, as they were, or commits
    the posting and the version is one more; a request that returns is of
    the second kind. *)
Lemma version_counts_commits {V} `{Json V} (route : TransactionType)
    (settings : Settings) (data : TransactionBase.t V) (w w' : World)
    (r : outcome Transaction.t) (a : Account.t) :
  post_transaction route settings data w = (r, w') ->
  find_account (TransactionBase.account_id data) (accounts (committed w)) = Some a ->
  (committed w' = committed w
   /\ version_of (TransactionBase.account_id data) w' = Some (Account.version a)
   /\ exists e, r = Raise e)
  \/ (committed w' = settled route data a w
      /\ version_of (TransactionBase.account_id data) w' = Some (Account.version a + 1)).
Proof.
  intros Hrun Hfind. rewrite post_transaction_trace in Hrun.
  destruct (ledger_trace_cases _ _ _ _ _ Hrun)
    as [[Hsame He] | [a' [Hfind' [_ [_ [Hset _]]]]]].
  - left. unfold version_of. rewrite Hsame, Hfind. auto.
  - right. rewrite Hfind in Hfind'. inversion Hfind'; subst a'.
    split; [exact Hset|]. unfold version_of. rewrite Hset.
    now rewrite (find_account_settled route data w a Hfind).
Qed.

(** C5, at the failing input.  A debit whose commit succeeds and whose
    refresh raises is reported to the caller as failed (the 500), yet the
    committed version went from 1 to 2 and the balance from 1000.00 to
    900.00. *)
Theorem reported_failure_after_commit_moves_version :
  let w := world0 [acct "a1" 100000 true 1]
             [None; None; Some (OperationalError, "connection lost")] in
  exists w',
    Endpoints.debit_account default_settings (order "a1" 10000 "USD") w
    = (Raise storage_error, w')
    /\ version_of "a1" w = Some 1
    /\ version_of "a1" w' = Some 2
    /\ balance_of "a1" w' = Some 90000.
Proof.
  eexists. split; [vm_compute; reflexivity|]. repeat split.
Qed.

(** * Further properties of the services *)

(** ** Every request *)



(** X2.  Whatever the configured number of attempts, a debit or credit
    request never waits and never ends in [RetryError]: the clock and the
    record of waits are as before. *)
Theorem request_never_waits {V} `{Json V} (route : TransactionType)
    (settings : Settings) (data : TransactionBase.t V) (w w' : World)
    (r : outcome Transaction.t) :
  post_transaction route settings data w = (r, w') ->
  slept w' = slept w /\ utcnow w' = utcnow w /\ r <> Raise RetryError.
Proof.
  intros Hrun. rewrite post_transaction_trace in Hrun.
  trace_cases Hrun; repeat split; try discriminate;
    intros Heq; inversion Heq; subst;
    match goal with
    | Hr : rule_failure _ _ _ = Some _ |- _ =>
        apply rule_failure_is_business_rule_error in Hr; discriminate Hr
    end.
Qed.

Lemma X2_witness :
  slept (snd (post_transaction DEBIT (mkSettings 5) (order "a1" 10000 "USD")
                (world0 [acct "a1" 100000 true 1]
                        [None; Some (OperationalError, "connection lost")])))
  = [].
Proof.
  exact (proj1 (request_never_waits DEBIT (mkSettings 5) (order "a1" 10000 "USD")
                  (world0 [acct "a1" 100000 true 1]
                          [None; Some (OperationalError, "connection lost")])
                  _ _ (surjective_pairing _))).
Defined.

(** X3.  A debit or credit, whatever its outcome, leaves the row of every
    other account as it was. *)
Theorem request_leaves_other_accounts {V} `{Json V} (route : TransactionType)
    (settings : Settings) (data : TransactionBase.t V) (w w' : World)
    (r : outcome Transaction.t) (j : string) :
  post_transaction route settings data w = (r, w') ->
  j <> TransactionBase.account_id data ->
  find_account j (accounts (committed w')) = find_account j (accounts (committed w)).
Proof.
  intros Hrun Hj. rewrite post_transaction_trace in Hrun.
  destruct (ledger_trace_cases _ _ _ _ _ Hrun)
    as [[Hsame _] | [a [Hfind [_ [_ [Hset _]]]]]].
  - now rewrite Hsame.
  - rewrite Hset. unfold settled. simpl.
    apply find_put_account_other. simpl.
    rewrite (find_account_id _ _ _ Hfind). auto.
Qed.

Lemma X3_witness :
  find_account "a2"
    (accounts (committed (snd (post_transaction DEBIT default_settings
                                 (order "a1" 10000 "USD")
                                 (world0 [acct "a1" 100000 true 1; acct "a2" 500 true 7] [])))))
  = Some (acct "a2" 500 true 7).
Proof.
  refine (request_leaves_other_accounts DEBIT default_settings (order "a1" 10000 "USD")
            (world0 [acct "a1" 100000 true 1; acct "a2" 500 true 7] [])
            _ _ "a2" (surjective_pairing _) _).
  discriminate.
Defined.

(** X4.  A debit or credit never changes the id, number, name, currency,
    active flag or [created_at] of the account it addresses; the version
    stays or goes up by exactly 1. *)
Theorem request_keeps_account_identity {V} `{Json V} (route : TransactionType)
    (settings : Settings) (data : TransactionBase.t V) (w w' : World)
    (r : outcome Transaction.t) (a : Account.t) :
  post_transaction route settings data w = (r, w') ->
  find_account (TransactionBase.account_id data) (accounts (committed w)) = Some a ->
  exists a',
    find_account (TransactionBase.account_id data) (accounts (committed w')) = Some a'
    /\ Account.id a' = Account.id a
    /\ Account.account_number a' = Account.account_number a
    /\ Account.account_name a' = Account.account_name a
    /\ Account.currency a' = Account.currency a
    /\ Account.is_active a' = Account.is_active a
    /\ Account.created_at a' = Account.created_at a
    /\ (Account.version a' = Account.version a \/ Account.version a' = Account.version a + 1).
Proof.
  intros Hrun Hfind. rewrite post_transaction_trace in Hrun.
  destruct (ledger_trace_cases _ _ _ _ _ Hrun)
    as [[Hsame _] | [a0 [Hfind0 [_ [_ [Hset _]]]]]].
  - exists a. rewrite Hsame. repeat split; auto.
  - rewrite Hfind in Hfind0. inversion Hfind0; subst a0.
    exists (posted route (TransactionBase.amount data) (utcnow w) a).
    rewrite Hset, (find_account_settled route data w a Hfind).
    repeat split; auto.
Qed.

Lemma X4_witness :
  exists a',
    find_account "a1"
      (accounts (committed (snd (post_transaction CREDIT default_settings
                                   (order "a1" 10000 "USD")
                                   (world0 [acct "a1" 100000 true 1] [])))))
    = Some a'
    /\ Account.account_number a' = "ACC-0001".
Proof.
  destruct (request_keeps_account_identity CREDIT default_settings (order "a1" 10000 "USD")
              (world0 [acct "a1" 100000 true 1] []) _ _ (acct "a1" 100000 true 1)
              (surjective_pairing _) eq_refl)
    as [a' [Hf [_ [Hn _]]]].
  exists a'. split; [exact Hf | exact Hn].
Defined.

(** X5.  A debit or credit leaves the transaction table as it was or adds
    exactly one row; that row is COMPLETED, of the type of the route, for
    the account of the request, and its currency is that of the request and
    of the account.  No PENDING row is ever committed. *)
Theorem request_appends_at_most_one_completed_row {V} `{Json V}
    (route : TransactionType) (settings : Settings) (data : TransactionBase.t V)
    (w w' : World) (r : outcome Transaction.t) :
  post_transaction route settings data w = (r, w') ->
  transactions (committed w') = transactions (committed w)
  \/ exists t,
       transactions (committed w') = t :: transactions (committed w)
       /\ Transaction.status t = COMPLETED
       /\ Transaction.transaction_type t = route
       /\ Transaction.account_id t = TransactionBase.account_id data
       /\ Transaction.currency t = TransactionBase.currency data
       /\ option_map Account.currency
            (find_account (TransactionBase.account_id data) (accounts (committed w')))
          = Some (Transaction.currency t).
Proof.
  intros Hrun. rewrite post_transaction_trace in Hrun.
  destruct (ledger_trace_cases _ _ _ _ _ Hrun)
    as [[Hsame _] | [a [Hfind [Hrule [_ [Hset _]]]]]].
  - left. now rewrite Hsame.
  - right. exists (receipt route data a w). rewrite Hset.
    rewrite (find_account_settled route data w a Hfind). simpl.
    repeat split; auto.
    + exact (find_account_id _ _ _ Hfind).
    + unfold rule_failure in Hrule.
      destruct (negb (Account.is_active a)); [discriminate|].
      destruct (String.eqb (Account.currency a) (TransactionBase.currency data)) eqn:E;
        [|discriminate].
      now apply String.eqb_eq.
Qed.

Lemma X5_witness :
  exists t,
    transactions (committed (snd (post_transaction DEBIT default_settings
                                    (order "a1" 10000 "USD")
                                    (world0 [acct "a1" 100000 true 1] []))))
    = [t]
    /\ Transaction.status t = COMPLETED
    /\ Transaction.transaction_type t = DEBIT.
Proof.
  destruct (request_appends_at_most_one_completed_row DEBIT default_settings
              (order "a1" 10000 "USD") (world0 [acct "a1" 100000 true 1] [])
              _ _ (surjective_pairing _)) as [Hs | [t [Ht [Hc [Hty _]]]]].
  - vm_compute in Hs. discriminate Hs.
  - exists t. repeat split; assumption.
Defined.

(** X6.  The checks are made in the order inactive, currency, funds: an
    inactive account is rejected as inactive whatever the currency and the
    amount, an active account in another currency with the mismatch message
    whatever the amount, and a debit above the balance for insufficient
    funds; the committed rows are unchanged each time. *)
Theorem postings_are_rejected_in_order {V} `{Json V} (route : TransactionType)
    (settings : Settings) (data : TransactionBase.t V) (w : World) (a : Account.t) :
  find_account (TransactionBase.account_id data) (accounts (committed w)) = Some a ->
  no_fault 1 (faults w) = true ->
  let rejected detail :=
    exists w',
      post_transaction route settings data w = (Raise (HTTPException 400 detail), w')
      /\ committed w' = committed w in
  (Account.is_active a = false -> rejected "Account is inactive")
  /\ (Account.is_active a = true ->
      Account.currency a <> TransactionBase.currency data ->
      rejected (TransactionService.currency_mismatch_detail
                  (Account.currency a) (TransactionBase.currency data)))
  /\ (Account.is_active a = true ->
      Account.currency a = TransactionBase.currency data ->
      route = DEBIT ->
      Account.balance a < TransactionBase.amount data ->
      rejected "Insufficient funds").
Proof.
  intros Hfind Hf rejected. unfold rejected. repeat split.
  - intros Hact.
    rewrite (failed_rule_is_raised route settings data w a
               (HTTPException 400 "Account is inactive") Hf Hfind).
    + eexists. split; reflexivity.
    + unfold rule_failure. now rewrite Hact.
  - intros Hact Hcur.
    rewrite (failed_rule_is_raised route settings data w a
               (HTTPException 400
                  (TransactionService.currency_mismatch_detail
                     (Account.currency a) (TransactionBase.currency data))) Hf Hfind).
    + eexists. split; reflexivity.
    + unfold rule_failure. rewrite Hact. simpl.
      apply String.eqb_neq in Hcur. now rewrite Hcur.
  - intros Hact Hcur -> Hlt.
    rewrite (failed_rule_is_raised DEBIT settings data w a
               (HTTPException 400 "Insufficient funds") Hf Hfind).
    + eexists. split; reflexivity.
    + unfold rule_failure. rewrite Hact, Hcur, String.eqb_refl. simpl.
      apply Z.ltb_lt in Hlt. now rewrite Hlt.
Qed.

Lemma X6_witness :
  exists w',
    post_transaction CREDIT default_settings (order "a1" 500 "EUR")
      (world0 [acct "a1" 100000 true 1] [])
    = (Raise (HTTPException 400
                "Currency mismatch. Account currency is USD, transaction currency is EUR"),
       w')
    /\ committed w' = mkDatabase [acct "a1" 100000 true 1] [].
Proof.
  refine (proj1 (proj2 (postings_are_rejected_in_order CREDIT default_settings
                          (order "a1" 500 "EUR") (world0 [acct "a1" 100000 true 1] [])
                          (acct "a1" 100000 true 1) eq_refl eq_refl)) eq_refl _).
  discriminate.
Defined.

(** ** Reading back *)

(** Unfold the read services around the session operations and compute. *)
Ltac run_read :=
  unfold Endpoints.get_account, Endpoints.get_account_balance,
    Endpoints.get_transaction, get_db,
    AccountService.get_account_balance, AccountService.get_account,
    AccountService.get_account_by_account_number,
    TransactionService.get_transaction,
    bind, ret, raise, query_account_first, query_transaction_first,
    query_account_by_number_first, round_trip,
    with_faults, with_session, with_committed, clean_session, leave,
    HTTP_404_NOT_FOUND;
  simpl.

Lemma get_transaction_finds (i : string) (w : World) (t : Transaction.t) :
  no_fault 1 (faults w) = true ->
  find_transaction i (transactions (committed w)) = Some t ->
  Endpoints.get_transaction i w
  = (Return t, leave (committed w) (tl (faults w)) (uuid_calls w) w).
Proof.
  intros Hf Hfind. destruct w as [c s f now u n sl]. simpl in *.
  destruct f as [|[x|] f]; simpl in Hf; try discriminate;
    run_read; rewrite Hfind; reflexivity.
Qed.

Lemma get_account_finds (i : string) (w : World) (a : Account.t) :
  no_fault 1 (faults w) = true ->
  find_account i (accounts (committed w)) = Some a ->
  Endpoints.get_account i w
  = (Return a, leave (committed w) (tl (faults w)) (uuid_calls w) w).
Proof.
  intros Hf Hfind. destruct w as [c s f now u n sl]. simpl in *.
  destruct f as [|[x|] f]; simpl in Hf; try discriminate;
    run_read; rewrite Hfind; reflexivity.
Qed.

Lemma get_account_balance_finds (i : string) (w : World) (a : Account.t) :
  no_fault 1 (faults w) = true ->
  find_account i (accounts (committed w)) = Some a ->
  Endpoints.get_account_balance i w
  = (Return (AccountBalance.mk (Account.id a) (Account.account_number a)
               (Account.balance a) (Account.currency a)),
     leave (committed w) (tl (faults w)) (uuid_calls w) w).
Proof.
  intros Hf Hfind. destruct w as [c s f now u n sl]. simpl in *.
  destruct f as [|[x|] f]; simpl in Hf; try discriminate;
    run_read; rewrite Hfind; reflexivity.
Qed.

(** X7.  The transaction a debit or credit returns is what [get_transaction]
    returns for its id afterwards, and that read changes no row. *)
Theorem returned_transaction_can_be_fetched {V} `{Json V} (route : TransactionType)
    (settings : Settings) (data : TransactionBase.t V) (w w' : World)
    (t : Transaction.t) :
  post_transaction route settings data w = (Return t, w') ->
  no_fault 1 (faults w') = true ->
  exists w'',
    Endpoints.get_transaction (Transaction.id t) w' = (Return t, w'')
    /\ committed w'' = committed w'.
Proof.
  intros Hrun Hf. rewrite post_transaction_trace in Hrun.
  destruct (ledger_trace_cases _ _ _ _ _ Hrun)
    as [[_ [e He]] | [a [_ [_ [_ [Hset [Hr | Hr]]]]]]]; try discriminate.
  inversion Hr; subst t.
  rewrite (get_transaction_finds _ w' (receipt route data a w) Hf).
  - eexists. split; reflexivity.
  - rewrite Hset. unfold settled, find_transaction. simpl.
    now rewrite String.eqb_refl.
Qed.

Lemma X7_witness :
  exists t w' w'',
    post_transaction DEBIT default_settings (order "a1" 10000 "USD")
      (world0 [acct "a1" 100000 true 1] []) = (Return t, w')
    /\ Endpoints.get_transaction (Transaction.id t) w' = (Return t, w'').
Proof.
  eassert (Hrun : post_transaction DEBIT default_settings (order "a1" 10000 "USD")
                    (world0 [acct "a1" 100000 true 1] []) = (Return _, _))
    by (vm_compute; reflexivity).
  destruct (returned_transaction_can_be_fetched _ _ _ _ _ _ Hrun eq_refl)
    as [w'' [Hget _]].
  eexists _, _, w''. split; [exact Hrun | exact Hget].
Defined.

(** X8.  After a debit or credit has returned, [get_account_balance] reports
    the committed balance with the id, number and currency of the account;
    that balance is non-negative, not above the balance from before after a
    debit and not below it after a credit; the read changes no row. *)
Theorem balance_read_after_posting {V} `{Json V} (route : TransactionType)
    (settings : Settings) (data : TransactionBase.t V) (w w' : World)
    (t : Transaction.t) (a : Account.t) :
  post_transaction route settings data w = (Return t, w') ->
  find_account (TransactionBase.account_id data) (accounts (committed w)) = Some a ->
  TransactionBase.validate data = true ->
  no_fault 1 (faults w') = true ->
  exists b' w'',
    Endpoints.get_account_balance (TransactionBase.account_id data) w'
    = (Return (AccountBalance.mk (Account.id a) (Account.account_number a) b'
                 (Account.currency a)), w'')
    /\ balance_of (TransactionBase.account_id data) w' = Some b'
    /\ 0 <= b'
    /\ (route = DEBIT -> b' <= Account.balance a)
    /\ (route = CREDIT -> Account.balance a <= b')
    /\ committed w'' = committed w'.
Proof.
  intros Hrun Hfind Hval Hf. rewrite post_transaction_trace in Hrun.
  pose proof (validate_amount _ Hval) as Hamount.
  destruct (ledger_trace_cases _ _ _ _ _ Hrun)
    as [[_ [e He]] | [a0 [Hfind0 [_ [Hnb [Hset _]]]]]]; try discriminate.
  rewrite Hfind in Hfind0. inversion Hfind0; subst a0.
  assert (Hposted : find_account (TransactionBase.account_id data)
                      (accounts (committed w'))
                    = Some (posted route (TransactionBase.amount data) (utcnow w) a))
    by (rewrite Hset; apply find_account_settled; exact Hfind).
  exists (new_balance route (TransactionBase.amount data) (Account.balance a)).
  rewrite (get_account_balance_finds _ w'
             (posted route (TransactionBase.amount data) (utcnow w) a) Hf Hposted).
  eexists. split; [reflexivity|].
  split; [unfold balance_of; now rewrite Hposted|].
  split; [exact Hnb|].
  repeat split; intros ->; simpl; lia.
Qed.

Lemma X8_witness :
  exists b' w'',
    Endpoints.get_account_balance "a1"
      (snd (post_transaction CREDIT default_settings (order "a1" 2500 "USD")
              (world0 [acct "a1" 100000 true 1] [])))
    = (Return (AccountBalance.mk "a1" "ACC-0001" b' "USD"), w'')
    /\ 100000 <= b'.
Proof.
  eassert (Hrun : post_transaction CREDIT default_settings (order "a1" 2500 "USD")
                    (world0 [acct "a1" 100000 true 1] []) = (Return _, _))
    by (vm_compute; reflexivity).
  destruct (balance_read_after_posting _ _ _ _ _ _ (acct "a1" 100000 true 1)
              Hrun eq_refl eq_refl eq_refl)
    as [b' [w'' [Hget [_ [_ [_ [Hup _]]]]]]].
  exists b', w''. rewrite Hrun. split; [exact Hget | exact (Hup eq_refl)].
Defined.

(** X9.  The four read services, whatever they return or raise, change
    neither the committed rows nor the session: the world after is the world
    before less one round trip. *)
Theorem reads_change_nothing (w : World) :
  (forall i r w', AccountService.get_account i w = (r, w') ->
                  w' = with_faults (tl (faults w)) w)
  /\ (forall n r w', AccountService.get_account_by_account_number n w = (r, w') ->
                     w' = with_faults (tl (faults w)) w)
  /\ (forall i r w', AccountService.get_account_balance i w = (r, w') ->
                     w' = with_faults (tl (faults w)) w)
  /\ (forall i r w', TransactionService.get_transaction i w = (r, w') ->
                     w' = with_faults (tl (faults w)) w).
Proof.
  destruct w as [c s f now u n sl].
  repeat split; intros i r w'; run_read;
    destruct f as [|[[cls msg]|] f]; simpl;
    repeat match goal with
           | |- context [match ?x with _ => _ end] =>
               lazymatch x with
               | context [match _ with _ => _ end] => fail
               | _ => destruct x
               end
           end;
    simpl; intros Heq; inversion Heq; reflexivity.
Qed.

Lemma X9_witness :
  snd (AccountService.get_account "a1" (world0 [acct "a1" 100000 true 1] [None]))
  = with_faults [] (world0 [acct "a1" 100000 true 1] [None]).
Proof.
  exact (proj1 (reads_change_nothing (world0 [acct "a1" 100000 true 1] [None]))
           "a1" _ _ (surjective_pairing _)).
Defined.

(** ** Requests in sequence *)


Lemma rule_failure_debit_passes {V} (data : TransactionBase.t V) (a : Account.t) :
  Account.is_active a = true ->
  Account.currency a = TransactionBase.currency data ->
  TransactionBase.amount data <= Account.balance a ->
  rule_failure DEBIT data a = None.
Proof.
  intros Hact Hcur Hle. unfold rule_failure. rewrite Hact, Hcur, String.eqb_refl. simpl.
  apply Z.ltb_ge in Hle. now rewrite Hle.
Qed.


Lemma no_fault_weaken (n : nat) (f : list (option DbFault)) :
  no_fault (S n) f = true -> no_fault n f = true.
Proof.
  revert f. induction n as [|n IH]; intros f; [reflexivity|].
  destruct f as [|[x|] f]; simpl; try discriminate; auto.
Qed.



(** X12.  The reference of a request is never checked, nor are the
    transactions already stored: with another reference, also one that a
    stored transaction carries, and with any transaction table in which the
    identifier to be drawn is new, a debit or credit has the same outcome
    (the same exception, or the same row but for its reference), leaves the
    same account rows and uses the same round trips. *)
Theorem reference_is_never_checked {V} `{Json V} (route : TransactionType)
    (settings : Settings) (data : TransactionBase.t V) (reference : option string)
    (stored : list Transaction.t) (w : World) :
  find_transaction (uuid4 w (uuid_calls w)) (transactions (committed w)) = None ->
  find_transaction (uuid4 w (uuid_calls w)) stored = None ->
  let run := post_transaction route settings data w in
  let run' := post_transaction route settings
                (TransactionBase.with_reference reference data)
                (with_transactions stored w) in
  fst run' = relabel reference (fst run)
  /\ accounts (committed (snd run')) = accounts (committed (snd run))
  /\ faults (snd run') = faults (snd run)
  /\ ((transactions (committed (snd run)) = transactions (committed w)
       /\ transactions (committed (snd run')) = stored)
      \/ exists t,
           transactions (committed (snd run)) = t :: transactions (committed w)
           /\ transactions (committed (snd run'))
              = Transaction.with_reference reference t :: stored).
Proof.
  intros _ _. cbv zeta. rewrite !post_transaction_trace. unfold ledger_trace.
  change (faults (with_transactions stored w)) with (faults w).
  change (accounts (committed (with_transactions stored w)))
    with (accounts (committed w)).
  change (TransactionBase.account_id (TransactionBase.with_reference reference data))
    with (TransactionBase.account_id data).
  change (TransactionBase.amount (TransactionBase.with_reference reference data))
    with (TransactionBase.amount data).
  assert (Hrule : forall a,
            rule_failure route (TransactionBase.with_reference reference data) a
            = rule_failure route data a) by reflexivity.
  destruct (faults w) as [|[flt|] f0]; simpl;
    (destruct (find_account (TransactionBase.account_id data) (accounts (committed w)))
       as [a|]; simpl);
    rewrite ?Hrule; try (destruct (rule_failure route data a); simpl).
  all: repeat match goal with
       | |- context [match ?f with _ => _ end] =>
           is_var f; destruct f as [|[?|] ?]; simpl
       | |- context [if ?c then _ else _] => destruct c; simpl
       end.
  all: repeat split; auto;
    first [ left; split; reflexivity | right; eexists; split; reflexivity ].
Qed.

(** A debit with the reference [ORDER-1] on a ledger whose log has a row
    with that reference already: the outcome is that of the debit without a
    reference on an empty log, but for the reference of the row. *)
Lemma X12_witness :
  fst (post_transaction DEBIT default_settings
         (TransactionBase.with_reference (Some "ORDER-1") (order "a1" 10000 "USD"))
         (with_transactions
            [Transaction.with_reference (Some "ORDER-1") completed_row]
            (world0 [acct "a1" 100000 true 1] [])))
  = relabel (Some "ORDER-1")
      (fst (post_transaction DEBIT default_settings (order "a1" 10000 "USD")
              (world0 [acct "a1" 100000 true 1] []))).
Proof.
  exact (proj1 (reference_is_never_checked DEBIT default_settings
                  (order "a1" 10000 "USD") (Some "ORDER-1")
                  [Transaction.with_reference (Some "ORDER-1") completed_row]
                  (world0 [acct "a1" 100000 true 1] []) eq_refl eq_refl)).
Defined.

Lemma posting_keeps_balances_non_negative {V} `{Json V} (route : TransactionType)
    (settings : Settings) (data : TransactionBase.t V) (w : World) :
  balances_non_negative (committed w) ->
  balances_non_negative (committed (snd (post_transaction route settings data w))).
Proof.
  intros Hinv.
  destruct (post_transaction route settings data w) as [r w'] eqn:Hrun.
  rewrite post_transaction_trace in Hrun. simpl.
  destruct (ledger_trace_cases _ _ _ _ _ Hrun)
    as [[Hsame _] | [a [Hfind [_ [Hnb [Hset _]]]]]].
  - now rewrite Hsame.
  - rewrite Hset. intros x Hx. unfold settled in Hx. simpl in Hx.
    apply In_put_account in Hx. destruct Hx as [-> | Hx]; [exact Hnb | now apply Hinv].
Qed.

(** X13.  Every history of debit and credit requests, whatever their data
    and their outcomes, keeps the committed balances non-negative. *)
Theorem histories_keep_balances_non_negative {V} `{Json V} (settings : Settings)
    (requests : list (TransactionType * TransactionBase.t V)) (w : World) :
  balances_non_negative (committed w) ->
  balances_non_negative (committed (post_all settings requests w)).
Proof.
  revert w. induction requests as [|[route data] rest IH]; intros w Hinv; simpl.
  - exact Hinv.
  - apply IH. now apply posting_keeps_balances_non_negative.
Qed.

Lemma X13_witness :
  balances_non_negative
    (committed (post_all default_settings
                  [(DEBIT, order "a1" 70000 "USD"); (DEBIT, order "a1" 70000 "USD");
                   (CREDIT, order "a1" 500 "USD")]
                  (world0 [acct "a1" 100000 true 1] []))).
Proof.
  apply histories_keep_balances_non_negative.
  intros a [<- | []]. simpl. lia.
Defined.

(** X14.  Over every history of debit and credit requests the transaction
    table only grows: the earlier rows stay as they were, each new row is
    COMPLETED, and there is at most one new row for each request. *)
Theorem histories_only_append_completed_rows {V} `{Json V} (settings : Settings)
    (requests : list (TransactionType * TransactionBase.t V)) (w : World) :
  exists l,
    transactions (committed (post_all settings requests w))
    = (l ++ transactions (committed w))%list
    /\ Forall (fun t => Transaction.status t = COMPLETED) l
    /\ (List.length l <= List.length requests)%nat.
Proof.
  revert w. induction requests as [|[route data] rest IH]; intros w; simpl.
  - exists []. repeat split; auto.
  - destruct (IH (snd (post_transaction route settings data w))) as [l [Hl [Hc Hn]]].
    destruct (post_transaction route settings data w) as [r w'] eqn:Hrun.
    rewrite post_transaction_trace in Hrun. simpl in *.
    destruct (ledger_trace_cases _ _ _ _ _ Hrun)
      as [[Hsame _] | [a [_ [_ [_ [Hset _]]]]]].
    + exists l. rewrite Hl, Hsame. repeat split; auto.
    + exists (l ++ [receipt route data a w])%list. rewrite Hl, Hset. simpl.
      rewrite <- app_assoc. repeat split.
      * apply Forall_app. split; [exact Hc|]. constructor; [reflexivity | constructor].
      * rewrite length_app. simpl. lia.
Qed.

(** ** Updating an account *)

Lemma mem_three (k i : string) : mem k [i; i; i] = String.eqb k i.
Proof. unfold mem. simpl. now destruct (String.eqb k i). Qed.

Lemma update_account_returns (account_id : string) (account_data : AccountUpdate.t)
    (w : World) (a : Account.t) :
  find_account account_id (accounts (committed w)) = Some a ->
  0 <= Account.balance a ->
  no_fault 3 (faults w) = true ->
  Endpoints.update_account account_id account_data w
  = (Return (updated account_data (utcnow w) a),
     leave (mkDatabase (put_account (updated account_data (utcnow w) a)
                                    (accounts (committed w)))
                       (transactions (committed w)))
           (tl (tl (tl (faults w)))) (uuid_calls w) w).
Proof.
  intros Hfind Hbal Hf.
  pose proof (find_account_id _ _ _ Hfind) as Hid. subst account_id.
  pose proof (find_account_existsb _ _ _ Hfind) as Hex.
  apply Z.leb_le in Hbal.
  assert (Hput : forall b, Account.id b = Account.id a ->
             find_account (Account.id a) (put_account b (accounts (committed w)))
             = Some b).
  { intros b Hb. rewrite <- Hb. apply (find_put_account_same _ a b).
    now rewrite Hb. }
  destruct account_data as [[name|] [flag|]];
    destruct w as [c s f now u n sl]; simpl in *;
    destruct f as [|[x|] [|[y|] [|[z|] f]]]; simpl in Hf; try discriminate;
    run_service; rewrite Hfind; run_service;
    rewrite ?put_account_twice by reflexivity;
    (rewrite check_put_account
       by (intros k; first [apply mem_one | apply mem_two | apply mem_three]));
    simpl; rewrite Hex, Hbal; unfold flush; simpl;
    rewrite ?put_account_twice by reflexivity;
    (rewrite flush_put_account
       by (intros k; first [apply mem_one | apply mem_two | apply mem_three]));
    rewrite update_transaction_row_clean; simpl;
    rewrite Hput by reflexivity; reflexivity.
Qed.

(** X16.  [update_account] writes the name and the active flag it is given
    and keeps the ones it is not given; the version grows by 1; balance,
    currency and number stay, and so do the transactions and every other
    account.  The account need not be active. *)
Theorem update_account_sets_what_it_is_given (account_id : string)
    (account_data : AccountUpdate.t) (w : World) (a : Account.t) :
  find_account account_id (accounts (committed w)) = Some a ->
  0 <= Account.balance a ->
  no_fault 3 (faults w) = true ->
  exists a' w',
    Endpoints.update_account account_id account_data w = (Return a', w')
    /\ find_account account_id (accounts (committed w')) = Some a'
    /\ Account.account_name a'
       = match AccountUpdate.account_name account_data with
         | Some name => name
         | None => Account.account_name a
         end
    /\ Account.is_active a'
       = match AccountUpdate.is_active account_data with
         | Some flag => flag
         | None => Account.is_active a
         end
    /\ Account.version a' = Account.version a + 1
    /\ Account.balance a' = Account.balance a
    /\ Account.currency a' = Account.currency a
    /\ Account.account_number a' = Account.account_number a
    /\ transactions (committed w') = transactions (committed w)
    /\ (forall j, j <> account_id ->
          find_account j (accounts (committed w'))
          = find_account j (accounts (committed w))).
Proof.
  intros Hfind Hbal Hf.
  rewrite (update_account_returns account_id account_data w a Hfind Hbal Hf).
  pose proof (find_account_id _ _ _ Hfind) as Hid.
  eexists _, _. split; [reflexivity|]. simpl. split.
  - subst account_id.
    exact (find_put_account_same _ a (updated account_data (utcnow w) a) Hfind).
  - repeat split. intros j Hj. apply find_put_account_other. simpl.
    rewrite Hid. auto.
Qed.

Lemma X16_witness :
  exists a' w',
    Endpoints.update_account "a1" (AccountUpdate.mk (Some "Savings") (Some false))
      (world0 [acct "a1" 100000 true 1] []) = (Return a', w')
    /\ Account.account_name a' = "Savings"
    /\ Account.is_active a' = false
    /\ Account.version a' = 2.
Proof.
  destruct (update_account_sets_what_it_is_given "a1"
              (AccountUpdate.mk (Some "Savings") (Some false))
              (world0 [acct "a1" 100000 true 1] []) (acct "a1" 100000 true 1)
              eq_refl ltac:(simpl; lia) eq_refl)
    as [a' [w' [Hrun [_ [Hn [Ha [Hv _]]]]]]].
  exists a', w'. repeat split; assumption.
Defined.

(** X17.  Once [update_account] has set [is_active] to false, every debit or
    credit on the account is rejected with 400 [Account is inactive], and
    the balance stays. *)
Theorem deactivated_account_rejects_postings {V} `{Json V} (route : TransactionType)
    (settings : Settings) (data : TransactionBase.t V) (name : option string)
    (w : World) (a : Account.t) :
  find_account (TransactionBase.account_id data) (accounts (committed w)) = Some a ->
  0 <= Account.balance a ->
  no_fault 4 (faults w) = true ->
  exists a' w1 w2,
    Endpoints.update_account (TransactionBase.account_id data)
      (AccountUpdate.mk name (Some false)) w = (Return a', w1)
    /\ post_transaction route settings data w1
       = (Raise (HTTPException 400 "Account is inactive"), w2)
    /\ committed w2 = committed w1
    /\ balance_of (TransactionBase.account_id data) w2 = Some (Account.balance a).
Proof.
  intros Hfind Hbal Hf.
  assert (Hf3 : no_fault 3 (faults w) = true) by (apply no_fault_weaken; exact Hf).
  assert (Hf1 : no_fault 1 (tl (tl (tl (faults w)))) = true)
    by (do 3 apply no_fault_tl; exact Hf).
  rewrite (update_account_returns _ (AccountUpdate.mk name (Some false)) w a
             Hfind Hbal Hf3).
  pose proof (find_account_id _ _ _ Hfind) as Hid.
  set (a' := updated (AccountUpdate.mk name (Some false)) (utcnow w) a).
  set (w1 := leave _ _ _ w).
  assert (Hfind1 : find_account (TransactionBase.account_id data)
                     (accounts (committed w1)) = Some a').
  { unfold w1. simpl. rewrite <- Hid in *.
    exact (find_put_account_same _ a a' Hfind). }
  eexists a', w1, _. split; [reflexivity|].
  rewrite (failed_rule_is_raised route settings data w1 a'
             (HTTPException 400 "Account is inactive") Hf1 Hfind1 eq_refl).
  split; [reflexivity|]. split; [reflexivity|].
  unfold balance_of, leave. cbn [committed]. now rewrite Hfind1.
Qed.

Lemma X17_witness :
  exists a' w1 w2,
    Endpoints.update_account "a1" (AccountUpdate.mk None (Some false))
      (world0 [acct "a1" 100000 true 1] []) = (Return a', w1)
    /\ post_transaction CREDIT default_settings (order "a1" 500 "USD") w1
       = (Raise (HTTPException 400 "Account is inactive"), w2).
Proof.
  destruct (deactivated_account_rejects_postings CREDIT default_settings
              (order "a1" 500 "USD") None (world0 [acct "a1" 100000 true 1] [])
              (acct "a1" 100000 true 1) eq_refl ltac:(simpl; lia) eq_refl)
    as [a' [w1 [w2 [H1 [H2 _]]]]].
  exists a', w1, w2. split; assumption.
Defined.

(** X18.  When the commit of [update_account] raises, no row changes and the
    session is left clean.  An [IntegrityError] reaches the caller as the
    400 [Failed to update account: ...]; any other [SQLAlchemyError] reaches
    the caller as it is. *)
Theorem failed_commit_of_update_changes_nothing (account_id : string)
    (account_data : AccountUpdate.t) (w : World) (a : Account.t)
    (cls : SQLAlchemyErrorClass) (msg : string) (rest : list (option DbFault)) :
  find_account account_id (accounts (committed w)) = Some a ->
  faults w = None :: Some (cls, msg) :: rest ->
  exists w',
    Endpoints.update_account account_id account_data w
    = (Raise match cls with
             | IntegrityError =>
                 HTTPException 400 ("Failed to update account: " ++ msg)
             | _ => SQLAlchemyError cls msg
             end, w')
    /\ committed w' = committed w
    /\ session w' = clean_session (committed w).
Proof.
  intros Hfind Hf.
  destruct account_data as [[name|] [flag|]];
    destruct w as [c s f now u n sl]; simpl in *; subst f;
    run_service; rewrite Hfind; run_service;
    destruct cls; simpl; eexists; repeat split.
Qed.

Lemma X18_witness :
  exists w',
    Endpoints.update_account "a1" (AccountUpdate.mk (Some "Savings") None)
      (world0 [acct "a1" 100000 true 1] [None; Some (OperationalError, "connection lost")])
    = (Raise (SQLAlchemyError OperationalError "connection lost"), w')
    /\ committed w' = mkDatabase [acct "a1" 100000 true 1] [].
Proof.
  destruct (failed_commit_of_update_changes_nothing "a1"
              (AccountUpdate.mk (Some "Savings") None)
              (world0 [acct "a1" 100000 true 1]
                 [None; Some (OperationalError, "connection lost")])
              (acct "a1" 100000 true 1) OperationalError "connection lost" []
              eq_refl eq_refl) as [w' [Hrun [Hc _]]].
  exists w'. split; assumption.
Defined.

(** X19.  For an id that no account has, [update_account], [get_account] and
    [get_account_balance] raise the 404 [Account not found] and change no
    row. *)
Theorem unknown_account_is_not_found (account_id : string) (w : World) :
  find_account account_id (accounts (committed w)) = None ->
  no_fault 1 (faults w) = true ->
  (forall account_data, exists w',
      Endpoints.update_account account_id account_data w
      = (Raise (HTTPException 404 "Account not found"), w')
      /\ committed w' = committed w)
  /\ (exists w',
        Endpoints.get_account account_id w
        = (Raise (HTTPException 404 "Account not found"), w')
        /\ committed w' = committed w)
  /\ (exists w',
        Endpoints.get_account_balance account_id w
        = (Raise (HTTPException 404 "Account not found"), w')
        /\ committed w' = committed w).
Proof.
  intros Hfind Hf. destruct w as [c s f now u n sl]. simpl in *.
  repeat split; try intros account_data;
    destruct f as [|[x|] f]; simpl in Hf; try discriminate;
    run_service;
    unfold Endpoints.get_account, Endpoints.get_account_balance, get_db,
      AccountService.get_account_balance, AccountService.get_account,
      bind, ret, raise, query_account_first, round_trip, with_faults, with_session,
      clean_session, HTTP_404_NOT_FOUND; simpl;
    rewrite Hfind; simpl; eexists; split; reflexivity.
Qed.

Lemma X19_witness :
  exists w',
    Endpoints.get_account_balance "a9" (world0 [acct "a1" 100000 true 1] [])
    = (Raise (HTTPException 404 "Account not found"), w')
    /\ committed w' = mkDatabase [acct "a1" 100000 true 1] [].
Proof.
  exact (proj2 (proj2 (unknown_account_is_not_found "a9"
                         (world0 [acct "a1" 100000 true 1] []) eq_refl eq_refl))).
Defined.

(** ** Creating an account *)

Lemma find_account_new (i : string) (l : list Account.t) (b : Account.t) :
  find_account i l = None -> Account.id b = i ->
  find_account i (l ++ [b])%list = Some b.
Proof.
  unfold find_account. intros Hnone Hid.
  induction l as [|r l IH]; simpl in *.
  - now rewrite Hid, String.eqb_refl.
  - destruct (String.eqb (Account.id r) i); [discriminate | auto].
Qed.

Lemma find_number_new (n : string) (l : list Account.t) (b : Account.t) :
  number_taken n l = false -> Account.account_number b = n ->
  find (fun a => String.eqb (Account.account_number a) n) (l ++ [b])%list = Some b.
Proof.
  unfold number_taken. intros Hnone Hn.
  induction l as [|r l IH]; simpl in *.
  - now rewrite Hn, String.eqb_refl.
  - destruct (String.eqb (Account.account_number r) n); [discriminate | auto].
Qed.

Lemma unique_violation_names_the_column :
  contains "account_number" (lower unique_violation) = true.
Proof. vm_compute. reflexivity. Qed.

(** Unfold [create_account] around the session operations and compute. *)
Ltac run_create :=
  unfold Endpoints.create_account, get_db, AccountService.create_account,
    try_except, bind, ret, raise, uuid_uuid4, db_add_commit_account,
    db_refresh_account, db_rollback, round_trip,
    with_faults, with_session, with_committed, clean_session, leave, flush,
    HTTP_409_CONFLICT, HTTP_400_BAD_REQUEST;
  cbn -[contains lower unique_violation check_violation find_account].

Ltac run_create_in H :=
  repeat progress
    (unfold Endpoints.create_account, get_db, AccountService.create_account,
       try_except, bind, ret, raise, uuid_uuid4, db_add_commit_account,
       db_refresh_account, db_rollback, round_trip,
       with_faults, with_session, with_committed, clean_session, leave, flush,
       HTTP_409_CONFLICT, HTTP_400_BAD_REQUEST in H;
     cbn -[contains lower unique_violation check_violation find_account] in H).

Lemma create_account_returns (account_data : AccountCreate.t) (w : World) :
  no_fault 2 (faults w) = true ->
  0 <= AccountCreate.initial_balance account_data ->
  number_taken (AccountCreate.account_number account_data) (accounts (committed w))
  = false ->
  find_account (uuid4 w (uuid_calls w)) (accounts (committed w)) = None ->
  Endpoints.create_account account_data w
  = (Return (created account_data w),
     leave (mkDatabase (accounts (committed w) ++ [created account_data w])
                       (transactions (committed w)))
           (tl (tl (faults w))) (S (uuid_calls w)) w).
Proof.
  intros Hf Hbal Hnum Hnew. apply Z.leb_le in Hbal. unfold number_taken in Hnum.
  destruct w as [c s f now u n sl]. simpl in *.
  destruct f as [|[x|] [|[y|] f]]; simpl in Hf; try discriminate;
    run_create; rewrite check_no_dirty_account, Hbal, Hnum; run_create;
    rewrite update_account_row_clean, update_transaction_row_clean;
    (erewrite find_account_new; [reflexivity | exact Hnew | reflexivity]).
Qed.

(** X20.  [create_account], for a number no account has and a non-negative
    balance, returns the account with the number, name and currency of the
    request, a non-negative balance, version 1 and active; [get_account]
    under its id and
    [get_account_by_account_number] under its number both return that row
    afterwards; the accounts stored before and the transactions are as they
    were. *)
Theorem created_account_can_be_read_back (account_data : AccountCreate.t) (w : World) :
  no_fault 3 (faults w) = true ->
  0 <= AccountCreate.initial_balance account_data ->
  number_taken (AccountCreate.account_number account_data) (accounts (committed w))
  = false ->
  find_account (uuid4 w (uuid_calls w)) (accounts (committed w)) = None ->
  exists a w1,
    Endpoints.create_account account_data w = (Return a, w1)
    /\ Account.account_number a = AccountCreate.account_number account_data
    /\ Account.account_name a = AccountCreate.account_name account_data
    /\ Account.currency a = AccountCreate.currency account_data
    /\ 0 <= Account.balance a
    /\ Account.version a = 1
    /\ Account.is_active a = true
    /\ (exists w2, Endpoints.get_account (Account.id a) w1 = (Return a, w2))
    /\ (exists w2,
          get_db (AccountService.get_account_by_account_number
                    (AccountCreate.account_number account_data)) w1
          = (Return a, w2))
    /\ transactions (committed w1) = transactions (committed w)
    /\ (forall j b, find_account j (accounts (committed w)) = Some b ->
                    find_account j (accounts (committed w1)) = Some b).
Proof.
  intros Hf Hbal Hnum Hnew.
  assert (Hf2 : no_fault 2 (faults w) = true) by (apply no_fault_weaken; exact Hf).
  assert (Hf1 : no_fault 1 (tl (tl (faults w))) = true)
    by (do 2 apply no_fault_tl; exact Hf).
  rewrite (create_account_returns account_data w Hf2 Hbal Hnum Hnew).
  eexists _, _. split; [reflexivity|]. repeat split.
  - exact Hbal.
  - eexists. apply get_account_finds; [exact Hf1|]. simpl.
    now apply find_account_new.
  - destruct w as [c s f now u n sl]. simpl in *.
    destruct f as [|[x|] [|[y|] [|[z|] f]]]; simpl in Hf; try discriminate;
      run_read; (erewrite find_number_new; [eexists; reflexivity | exact Hnum | reflexivity]).
  - intros j b Hj. simpl. unfold find_account in *.
    induction (accounts (committed w)) as [|r l IH]; simpl in *; [discriminate|].
    destruct (String.eqb (Account.id r) j); auto.
    apply IH; auto.
    + unfold number_taken in *. simpl in Hnum. apply orb_false_elim in Hnum. tauto.
    + destruct (String.eqb (Account.id r) (uuid4 w (uuid_calls w))); [discriminate | auto].
Qed.

Lemma X20_witness :
  exists a w1 w2,
    Endpoints.create_account (AccountCreate.mk "ACC-0002" "Second" "EUR" 5000)
      (world0 [acct "a1" 100000 true 1] []) = (Return a, w1)
    /\ Account.version a = 1
    /\ Endpoints.get_account (Account.id a) w1 = (Return a, w2).
Proof.
  destruct (created_account_can_be_read_back
              (AccountCreate.mk "ACC-0002" "Second" "EUR" 5000)
              (world0 [acct "a1" 100000 true 1] [])
              eq_refl ltac:(simpl; lia) eq_refl eq_refl)
    as [a [w1 [Hrun [_ [_ [_ [_ [Hv [_ [[w2 Hget] _]]]]]]]]]].
  exists a, w1, w2. repeat split; assumption.
Defined.

(** X21.  [create_account] with a number that a stored account has raises
    the 409 [Account with this account number already exists]; no row
    changes and the session is left clean. *)
Theorem taken_account_number_is_a_conflict (account_data : AccountCreate.t) (w : World) :
  no_fault 1 (faults w) = true ->
  0 <= AccountCreate.initial_balance account_data ->
  number_taken (AccountCreate.account_number account_data) (accounts (committed w))
  = true ->
  exists w',
    Endpoints.create_account account_data w
    = (Raise (HTTPException 409 "Account with this account number already exists"), w')
    /\ committed w' = committed w
    /\ session w' = clean_session (committed w).
Proof.
  intros Hf Hbal Hnum. apply Z.leb_le in Hbal. unfold number_taken in Hnum.
  destruct w as [c s f now u n sl]. simpl in *.
  destruct f as [|[x|] f]; simpl in Hf; try discriminate;
    run_create; rewrite check_no_dirty_account, Hbal, Hnum; run_create;
    rewrite unique_violation_names_the_column; eexists; repeat split.
Qed.

Lemma X21_witness :
  exists w',
    Endpoints.create_account (AccountCreate.mk "ACC-0001" "Again" "USD" 0)
      (world0 [acct "a1" 100000 true 1] [])
    = (Raise (HTTPException 409 "Account with this account number already exists"), w')
    /\ committed w' = mkDatabase [acct "a1" 100000 true 1] [].
Proof.
  destruct (taken_account_number_is_a_conflict
              (AccountCreate.mk "ACC-0001" "Again" "USD" 0)
              (world0 [acct "a1" 100000 true 1] [])
              eq_refl ltac:(simpl; lia) eq_refl) as [w' [Hrun [Hc _]]].
  exists w'. split; assumption.
Defined.

(** Whatever its outcome, [create_account] leaves the rows alone or appends
    the new row; it appends only a row with a non-negative balance and a
    number no stored account has. *)
Lemma create_account_cases (account_data : AccountCreate.t) (w w' : World)
    (r : outcome Account.t) :
  Endpoints.create_account account_data w = (r, w') ->
  transactions (committed w') = transactions (committed w)
  /\ (accounts (committed w') = accounts (committed w)
      \/ (accounts (committed w')
          = (accounts (committed w) ++ [created account_data w])%list
          /\ 0 <= AccountCreate.initial_balance account_data
          /\ number_taken (AccountCreate.account_number account_data)
               (accounts (committed w)) = false)).
Proof.
  intros Hrun. destruct w as [c s f now u n sl]. unfold number_taken.
  run_create_in Hrun;
    repeat (split_scrutinee Hrun; run_create_in Hrun; try discriminate);
    inversion Hrun; subst; simpl;
    rewrite ?update_account_row_clean, ?update_transaction_row_clean;
    (split; [reflexivity|]); auto;
    right; repeat split; auto;
    match goal with
    | Hb : negb (0 <=? _) = false |- _ =>
        apply negb_false_iff in Hb; now apply Z.leb_le in Hb
    end.
Qed.

Lemma NoDup_snoc {A} (l : list A) (x : A) :
  NoDup l -> ~ In x l -> NoDup (l ++ [x])%list.
Proof.
  intros Hnd. induction Hnd as [|y l Hy Hnd IH]; intros Hx; simpl.
  - constructor; [intros [] | constructor].
  - constructor.
    + intros Hin. apply in_app_or in Hin. destruct Hin as [Hin | [<- | []]].
      * contradiction.
      * apply Hx. now left.
    + apply IH. intros Hin. apply Hx. now right.
Qed.

(** X22.  [create_account], whatever its input and its outcome, keeps the
    committed balances non-negative and the account numbers pairwise
    distinct, and leaves the transactions alone. *)
Theorem create_account_keeps_the_table_constraints (account_data : AccountCreate.t)
    (w w' : World) (r : outcome Account.t) :
  Endpoints.create_account account_data w = (r, w') ->
  (balances_non_negative (committed w) -> balances_non_negative (committed w'))
  /\ (NoDup (map Account.account_number (accounts (committed w))) ->
      NoDup (map Account.account_number (accounts (committed w'))))
  /\ transactions (committed w') = transactions (committed w).
Proof.
  intros Hrun.
  destruct (create_account_cases _ _ _ _ Hrun) as [Ht [Hsame | [Hnew [Hbal Hnum]]]].
  - unfold balances_non_negative. rewrite Hsame. auto.
  - unfold balances_non_negative. rewrite Hnew. repeat split; auto.
    + intros Hinv a Ha. apply in_app_or in Ha. destruct Ha as [Ha | [<- | []]]; auto.
    + intros Hnd. rewrite map_app. simpl.
      apply NoDup_snoc; [exact Hnd|].
      intros Hin. apply in_map_iff in Hin. destruct Hin as [x [Hx Hin]].
      unfold number_taken in Hnum.
      assert (Htrue : existsb
                        (fun r0 => String.eqb (Account.account_number r0)
                                     (AccountCreate.account_number account_data))
                        (accounts (committed w)) = true).
      { apply existsb_exists. exists x. split; [exact Hin|]. now apply String.eqb_eq. }
      rewrite Htrue in Hnum. discriminate.
Qed.

Lemma X22_witness :
  balances_non_negative
    (committed (snd (Endpoints.create_account (AccountCreate.mk "ACC-0002" "Second" "EUR" (-5))
                       (world0 [acct "a1" 100000 true 1] [])))).
Proof.
  refine (proj1 (create_account_keeps_the_table_constraints
                   (AccountCreate.mk "ACC-0002" "Second" "EUR" (-5))
                   (world0 [acct "a1" 100000 true 1] []) _ _ (surjective_pairing _)) _).
  intros a [<- | []]. simpl. lia.
Defined.

(** ** Status updates *)

(** X23.  For an id that no transaction has, [_update_transaction_status]
    raises [AttributeError] (its parameter [status] hides the module the 404
    is read from) and changes no row, where [get_transaction] raises the 404
    [Transaction not found]. *)
Theorem status_update_of_unknown_transaction (transaction_id : string) (w : World) :
  find_transaction transaction_id (transactions (committed w)) = None ->
  no_fault 1 (faults w) = true ->
  (forall status commit, exists w',
      get_db (TransactionService._update_transaction_status transaction_id status commit) w
      = (Raise (AttributeError
                  "'TransactionStatus' object has no attribute 'HTTP_404_NOT_FOUND'"), w')
      /\ committed w' = committed w)
  /\ (exists w',
        Endpoints.get_transaction transaction_id w
        = (Raise (HTTPException 404 "Transaction not found"), w')
        /\ committed w' = committed w).
Proof.
  intros Hfind Hf. destruct w as [c s f now u n sl]. simpl in *.
  split; [intros status commit|];
    destruct f as [|[x|] f]; simpl in Hf; try discriminate;
    run_service; run_read; rewrite Hfind; simpl; eexists; split; reflexivity.
Qed.

Lemma X23_witness :
  exists w',
    get_db (TransactionService._update_transaction_status "tx-9" FAILED true) world1
    = (Raise (AttributeError
                "'TransactionStatus' object has no attribute 'HTTP_404_NOT_FOUND'"), w').
Proof.
  destruct (proj1 (status_update_of_unknown_transaction "tx-9" world1 eq_refl eq_refl)
              FAILED true) as [w' [Hrun _]].
  exists w'. exact Hrun.
Defined.

(** X24.  [_update_transaction_status] with [commit=False] returns the
    transaction with the new status and commits nothing: when the session of
    the request is closed the change is gone, and [get_transaction] returns
    the row as it was. *)
Theorem uncommitted_status_update_is_lost (transaction_id : string)
    (status : TransactionStatus) (w : World) (t : Transaction.t) :
  find_transaction transaction_id (transactions (committed w)) = Some t ->
  no_fault 2 (faults w) = true ->
  exists w1 w2,
    get_db (TransactionService._update_transaction_status transaction_id status false) w
    = (Return (Transaction.with_status status t), w1)
    /\ committed w1 = committed w
    /\ Endpoints.get_transaction transaction_id w1 = (Return t, w2).
Proof.
  intros Hfind Hf. destruct w as [c s f now u n sl]. simpl in *.
  destruct f as [|[x|] [|[y|] f]]; simpl in Hf; try discriminate;
    run_service; rewrite Hfind; run_service;
    eexists _, _; (split; [reflexivity|]); (split; [reflexivity|]);
    run_read; rewrite Hfind; reflexivity.
Qed.

Lemma X24_witness :
  exists w1 w2,
    get_db (TransactionService._update_transaction_status "tx-1" REVERSED false) world1
    = (Return (Transaction.with_status REVERSED completed_row), w1)
    /\ Endpoints.get_transaction "tx-1" w1 = (Return completed_row, w2).
Proof.
  destruct (uncommitted_status_update_is_lost "tx-1" REVERSED world1 completed_row
              eq_refl eq_refl) as [w1 [w2 [H1 [_ H2]]]].
  exists w1, w2. split; assumption.
Defined.
